(** * tgrid: connector and server lifecycles over a shallow embedding

    The development follows four classes of the repository:
    - [WebServer]        (src/protocols/web/WebServer.ts),
    - [WorkerServer]     (src/protocols/workers/WorkerServer.ts),
    - [WorkerServerOld]  (the earlier WorkerServer, with the [headers] getter),
    - [WorkerConnector]  (the parent side of a worker).

    A method is a function from the object's fields to a result and the new
    fields.  An [async] method that waits for something outside (a listener
    event, the destructor, a handshake frame) is cut at that [await]: the
    part before it is the method, the part after it is a [_resume] function.
    Everything a method does to the outside (frames posted, the channel
    closed, promises settled) is appended to a log kept in the fields. *)

From Stdlib Require Import String List Bool Arith NArith Lia.
Import ListNotations.
Open Scope string_scope.

(* ------------------------------------------------------------------ *)
(** ** Shared vocabulary *)

(** Modelled from the spec: the declaration of [IServer.State] and
    [IConnector.State] is not among the sources; the spec gives the enum as
    NONE, OPENING, OPEN, CLOSING, CLOSED (the connector calls the second one
    CONNECTING). *)
Inductive State : Set := NONE | OPENING | OPEN | CLOSING | CLOSED.

Abbreviation CONNECTING := OPENING (only parsing).

Definition State_eqb (a b : State) : bool :=
  match a, b with
  | NONE, NONE | OPENING, OPENING | OPEN, OPEN
  | CLOSING, CLOSING | CLOSED, CLOSED => true
  | _, _ => false
  end.

(** Position of a state in the order NONE, OPENING, OPEN, CLOSING, CLOSED. *)
Definition rank (s : State) : nat :=
  match s with
  | NONE => 0 | OPENING => 1 | OPEN => 2 | CLOSING => 3 | CLOSED => 4
  end.

Inductive ErrorName : Set :=
  DomainError | RuntimeError | SyntaxError | TypeError | RangeError
| PlainError.   (* an Error of no subclass *)

Record Error : Set := mkError { name : ErrorName; message : string }.

(** What arrives as [evt.data] on a worker channel, as the first frame of a
    web socket, or from the worker's environment: a lifecycle sentinel, a
    text, a binary buffer, or nothing at all. *)
Inductive Data : Set :=
| Sentinel (s : State)
| Text (s : string)
| Binary (b : string)
| Undefined.

Definition is_sentinel (s : State) (d : Data) : bool :=
  match d with
  | Sentinel s' => State_eqb s' s
  | _ => false
  end.

#[local] Unset Elimination Schemes.
Inductive Json : Set :=
| JNull
| JBool (b : bool)
| JNum (n : nat)
| JStr (s : string)
| JArr (l : list Json)
| JObj (fields : list (string * Json)).
#[local] Set Elimination Schemes.

Fixpoint assoc {A : Type} (k : string) (l : list (string * A)) : option A :=
  match l with
  | [] => None
  | (k', v) :: l' => if String.eqb k k' then Some v else assoc k l'
  end.

(** A JavaScript value read out of a parsed frame: [undefined] or a JSON
    value. *)
Definition Value : Set := option Json.

(** [w.p] for a parsed value [w]: a TypeError on [null], the field of an
    object, [undefined] on anything else. *)
Definition get_property (w : Json) (p : string) : option Value :=
  match w with
  | JNull => None
  | JObj fields => Some (assoc p fields)
  | _ => Some None
  end.

(** Results of a call: a value, or a thrown error (for an [async] method,
    the rejection of the promise it returns). *)
Inductive Res (A : Type) : Type :=
| Ok (a : A)
| Throw (e : Error).
Arguments Ok {A} a.
Arguments Throw {A} e.

Definition is_throw {A : Type} (r : Res A) : bool :=
  match r with Throw _ => true | Ok _ => false end.

(** State and exception monad of a method body.  A [throw] keeps the
    assignments made before it, as in JavaScript. *)
Definition M (S A : Type) : Type := S -> Res A * S.

Definition ret {S A : Type} (a : A) : M S A := fun s => (Ok a, s).
Definition throw {S A : Type} (e : Error) : M S A := fun s => (Throw e, s).
Definition bind {S A B : Type} (m : M S A) (k : A -> M S B) : M S B :=
  fun s =>
    match m s with
    | (Ok a, s') => k a s'
    | (Throw e, s') => (Throw e, s')
    end.
Definition get {S : Type} : M S S := fun s => (Ok s, s).
Definition modify {S : Type} (f : S -> S) : M S unit := fun s => (Ok tt, f s).

Notation "x <- m ;; k" := (bind m (fun x => k))
  (at level 61, m at next level, right associativity).
Notation "m ;;; k" := (bind m (fun _ => k))
  (at level 61, right associativity).

(** [try { body } catch (exp) { handler exp }] *)
Definition try_catch {S A : Type} (body : M S A) (handler : Error -> M S A)
  : M S A :=
  fun s =>
    match body s with
    | (Ok a, s') => (Ok a, s')
    | (Throw e, s') => handler e s'
    end.

(** What the classes do to the outside, in the order they do it. *)
Inductive Action : Type :=
| PostMessage (d : Data)            (* postMessage on the worker channel *)
| ChannelClose                      (* close() of the worker channel *)
| Destructor (failed : list nat)    (* destructor(): these calls were failed *)
| SendData (uid : nat)              (* a Call was put on the wire *)
| ReplyData (j : Json)              (* replyData(j) was entered *)
| CallResolved (uid : nat) (v : Value)
| CallRejected (uid : nat) (v : Value)
| PromiseResolved (p : nat)
| PromiseRejected (p : nat) (e : Error)
| UnhandledRejection (e : Error)
| Listen (sid : nat) (port : nat)
| ProtocolClose
| ServerClose (sid : nat).

(** The host a class runs on: the JSON parser and the globals the sources
    read.  [JSON_parse d] is [None] when [JSON.parse] throws. *)
Record Host : Type := mkHost {
  JSON_parse : Data -> option Json;
  is_node : bool;
  document_defined : bool;        (* self.document !== undefined *)
  process_send_defined : bool;    (* global.process.send !== undefined *)
  is_worker_server : bool;        (* (await channel_.get()).is_worker_server() *)
  argv2 : Data;                   (* global.process.argv[2] *)
  href_query : list (string * string)   (* variables of self.location.href *)
}.

Definition parse {S : Type} (h : Host) (d : Data) : M S Json :=
  match JSON_parse h d with
  | Some j => ret j
  | None => throw (mkError SyntaxError "JSON.parse")
  end.

(** Modelled from the spec: [URLVariables] is not among the sources; the
    spec speaks of the URL query parameter of the given name.  A missing
    parameter reads as [undefined]. *)
Definition URLVariables_get (h : Host) (key : string) : Data :=
  match assoc key (href_query h) with
  | Some v => Text v
  | None => Undefined
  end.

(* ------------------------------------------------------------------ *)
(** ** Communicator *)

(** Modelled from the spec: the [Communicator] class is not among the
    sources.  The part kept here is the pending-call table of sections 3 and
    4.3 and the dispatch of section 4.5: [register] on an outgoing Call,
    [complete] on an incoming Return (an unknown uid is dropped),
    [destructor] fails every pending call and leaves the table empty. *)
Module Communicator.

Record t : Set := mk { pending : list nat; next_uid : nat }.

Definition init : t := {| pending := []; next_uid := 0 |}.

Inductive Invoke : Set :=
| Call (uid : nat) (listener : string)
| Return (uid : nat) (success : bool) (value : Value).

(** The presence of [listener] identifies a Call, that of [success] a
    Return. *)
Definition decode (j : Json) : option Invoke :=
  match j with
  | JObj f =>
      match assoc "uid" f, assoc "listener" f, assoc "success" f with
      | Some (JNum u), Some (JStr l), _ => Some (Call u l)
      | Some (JNum u), None, Some (JBool b) => Some (Return u b (assoc "value" f))
      | _, _, _ => None
      end
  | _ => None
  end.

Definition register (c : t) : nat * t :=
  (next_uid c,
   {| pending := next_uid c :: pending c; next_uid := S (next_uid c) |}).

Definition remove (u : nat) (l : list nat) : list nat :=
  filter (fun v => negb (Nat.eqb u v)) l.

Definition complete (u : nat) (success : bool) (v : Value) (c : t)
  : list Action * t :=
  if existsb (Nat.eqb u) (pending c) then
    ([if success then CallResolved u v else CallRejected u v],
     {| pending := remove u (pending c); next_uid := next_uid c |})
  else ([], c).

Definition replyData (j : Json) (c : t) : list Action * t :=
  match decode j with
  | Some (Return u b v) =>
      let '(acts, c') := complete u b v c in (ReplyData j :: acts, c')
  | _ => ([ReplyData j], c)
  end.

Definition destructor (c : t) : list Action * t :=
  ([Destructor (pending c)], {| pending := []; next_uid := next_uid c |}).

End Communicator.

(* ------------------------------------------------------------------ *)
(** ** The earlier WorkerServer *)

Module WorkerServerOld.

Record t : Type := mk {
  state_ : State;
  provider_ : option (option nat);  (* undefined, null, or the object *)
  headers_ : option Json;           (* undefined until the first read *)
  onmessage : bool;                 (* g.onmessage is _Handle_message *)
  comm : Communicator.t;
  closing : nat;    (* close() calls waiting at [await this.destructor()] *)
  timers : nat;     (* setTimeout callbacks of close() not yet run *)
  log : list Action
}.

(** [new WorkerServer()] *)
Definition init : t := mk NONE None None false Communicator.init 0 0 [].

Definition set_state (v : State) : M t unit :=
  modify (fun s => mk v (provider_ s) (headers_ s) (onmessage s) (comm s)
                      (closing s) (timers s) (log s)).
Definition set_provider (v : option nat) : M t unit :=
  modify (fun s => mk (state_ s) (Some v) (headers_ s) (onmessage s) (comm s)
                      (closing s) (timers s) (log s)).
Definition set_headers (v : Json) : M t unit :=
  modify (fun s => mk (state_ s) (provider_ s) (Some v) (onmessage s) (comm s)
                      (closing s) (timers s) (log s)).
Definition set_onmessage : M t unit :=
  modify (fun s => mk (state_ s) (provider_ s) (headers_ s) true (comm s)
                      (closing s) (timers s) (log s)).
Definition set_closing (v : nat) : M t unit :=
  modify (fun s => mk (state_ s) (provider_ s) (headers_ s) (onmessage s)
                      (comm s) v (timers s) (log s)).
Definition set_timers (v : nat) : M t unit :=
  modify (fun s => mk (state_ s) (provider_ s) (headers_ s) (onmessage s)
                      (comm s) (closing s) v (log s)).
Definition emit (acts : list Action) : M t unit :=
  modify (fun s => mk (state_ s) (provider_ s) (headers_ s) (onmessage s)
                      (comm s) (closing s) (timers s) (log s ++ acts)).
(** A call into the Communicator: its actions go to the log. *)
Definition communicator (f : Communicator.t -> list Action * Communicator.t)
  : M t unit :=
  modify (fun s => let '(acts, c) := f (comm s) in
                   mk (state_ s) (provider_ s) (headers_ s) (onmessage s) c
                      (closing s) (timers s) (log s ++ acts)).

(** [WorkerServer.inspectReady], the chain of comparisons with its last
    [else] kept. *)
Definition inspectReady (state_ : State) : option Error :=
  if State_eqb state_ OPEN then None
  else if State_eqb state_ NONE then
    Some (mkError DomainError "Server is not opened yet.")
  else if State_eqb state_ OPENING then
    Some (mkError DomainError "Server is on opening; wait for a sec.")
  else if State_eqb state_ CLOSING then
    Some (mkError RuntimeError "Server is on closing.")
  else if State_eqb state_ CLOSED then
    Some (mkError RuntimeError "The server has been closed.")
  else Some (mkError RuntimeError "Unknown error, but not connected.").

(** [open(provider)].  There is no [await] in its body.  The state test
    is the last arm of the [if ... else if] chain, so it is only reached
    under node. *)
Definition open (h : Host) (provider : option nat) : M t unit :=
  s <- get ;;
  (if negb (is_node h) then
     if document_defined h then
       throw (mkError DomainError
                "Error on WorkerServer.open(): this is not Worker.")
     else ret tt
   else if negb (process_send_defined h) then
     throw (mkError DomainError
              "Error on WorkerServer.open(): this is not Child Process.")
   else if negb (State_eqb (state_ s) NONE) then
     throw (mkError DomainError
              "Error on WorkerServer.open(): the server has been opened yet.")
   else ret tt) ;;;
  set_state OPENING ;;;
  set_provider provider ;;;
  set_onmessage ;;;
  emit [PostMessage (Sentinel OPEN)] ;;;
  set_state OPEN.

(** [close()] up to [await this.destructor()]. *)
Definition close : M t unit :=
  s <- get ;;
  match inspectReady (state_ s) with
  | Some error => throw error
  | None =>
      set_state CLOSING ;;;
      communicator Communicator.destructor ;;;
      set_closing (S (closing s))
  end.

(** [close()] after the destructor: the timer is set, the state is
    CLOSED. *)
Definition close_resume : M t unit :=
  s <- get ;;
  match closing s with
  | 0 => ret tt
  | S n => set_closing n ;;; set_timers (S (timers s)) ;;; set_state CLOSED
  end.

(** The callback given to [setTimeout] by [close()]. *)
Definition timeout : M t unit :=
  s <- get ;;
  match timers s with
  | 0 => ret tt
  | S n => set_timers n ;;;
           emit [PostMessage (Sentinel CLOSING); ChannelClose]
  end.

(** The [headers] getter. *)
Definition headers (h : Host) : M t Json :=
  s <- get ;;
  match headers_ s with
  | None =>
      j <- parse h (if is_node h then argv2 h
                    else URLVariables_get h "__m_pArgs") ;;
      set_headers j ;;; ret j
  | Some j => ret j
  end.

(** [_Handle_message(evt)]: [this.close()] is not awaited, so its
    rejection reaches nobody. *)
Definition _Handle_message (h : Host) (d : Data) : M t unit :=
  if is_sentinel CLOSING d then
    try_catch close (fun e => emit [UnhandledRejection e])
  else
    j <- parse h d ;; communicator (Communicator.replyData j).

(** A frame arriving on [g]. *)
Definition deliver (h : Host) (d : Data) : M t unit :=
  s <- get ;;
  if onmessage s then _Handle_message h d else ret tt.

(** *** The class as a machine *)

Inductive Op : Type :=
| Open (provider : option nat)
| Close
| CloseResume
| TimerFires
| Headers
| Frame (d : Data).

Definition exec (h : Host) (op : Op) : M t unit :=
  match op with
  | Open provider => open h provider
  | Close => close
  | CloseResume => close_resume
  | TimerFires => timeout
  | Headers => headers h ;;; ret tt
  | Frame d => deliver h d
  end.

Definition step (h : Host) (s : t) (op : Op) : t := snd (exec h op s).

End WorkerServerOld.

(* ------------------------------------------------------------------ *)
(** ** WorkerServer (WorkerServer.ts) *)

Inductive Promise (A : Type) : Type :=
| Pending
| Fulfilled (a : A)
| Rejected (e : Error).
Arguments Pending {A}.
Arguments Fulfilled {A} a.
Arguments Rejected {A} e.

Module WorkerServer.

(** What [channel.onmessage] currently is: nothing, the [once(...)]
    wrapper installed by [_Handshake], or [_Handle_message].

    Modelled from the spec: [once] (internal/once) is not among the
    sources.  The handshake of section 4.6 reads one frame: the wrapper
    runs its function for the first frame and does nothing after that,
    which its [called] flag records. *)
Inductive Handler : Set :=
| NoHandler
| HandshakeOnce (called : bool)
| HandleMessage.

Record t : Type := mk {
  state_ : State;
  provider_ : option (option nat);
  header_ : option (Promise Value);  (* the Singleton: [None] before its first get() *)
  onmessage : Handler;
  comm : Communicator.t;
  opening : nat;    (* open() calls waiting at [await this.header_.get()] *)
  closing : nat;    (* close() calls waiting at [await this.destructor()] *)
  timers : nat;
  log : list Action
}.

Definition init : t :=
  mk NONE None None NoHandler Communicator.init 0 0 0 [].

Definition set_state (v : State) : M t unit :=
  modify (fun s => mk v (provider_ s) (header_ s) (onmessage s) (comm s)
                      (opening s) (closing s) (timers s) (log s)).
Definition set_provider (v : option nat) : M t unit :=
  modify (fun s => mk (state_ s) (Some v) (header_ s) (onmessage s) (comm s)
                      (opening s) (closing s) (timers s) (log s)).
Definition set_header (v : Promise Value) : M t unit :=
  modify (fun s => mk (state_ s) (provider_ s) (Some v) (onmessage s) (comm s)
                      (opening s) (closing s) (timers s) (log s)).
Definition set_onmessage (v : Handler) : M t unit :=
  modify (fun s => mk (state_ s) (provider_ s) (header_ s) v (comm s)
                      (opening s) (closing s) (timers s) (log s)).
Definition set_opening (v : nat) : M t unit :=
  modify (fun s => mk (state_ s) (provider_ s) (header_ s) (onmessage s)
                      (comm s) v (closing s) (timers s) (log s)).
Definition set_closing (v : nat) : M t unit :=
  modify (fun s => mk (state_ s) (provider_ s) (header_ s) (onmessage s)
                      (comm s) (opening s) v (timers s) (log s)).
Definition set_timers (v : nat) : M t unit :=
  modify (fun s => mk (state_ s) (provider_ s) (header_ s) (onmessage s)
                      (comm s) (opening s) (closing s) v (log s)).
Definition emit (acts : list Action) : M t unit :=
  modify (fun s => mk (state_ s) (provider_ s) (header_ s) (onmessage s)
                      (comm s) (opening s) (closing s) (timers s)
                      (log s ++ acts)).
Definition communicator (f : Communicator.t -> list Action * Communicator.t)
  : M t unit :=
  modify (fun s => let '(acts, c) := f (comm s) in
                   mk (state_ s) (provider_ s) (header_ s) (onmessage s) c
                      (opening s) (closing s) (timers s) (log s ++ acts)).

(** [WorkerServer.inspectReady]. *)
Definition inspectReady (state_ : State) : option Error :=
  if State_eqb state_ OPEN then None
  else if State_eqb state_ NONE then
    Some (mkError DomainError "Server is not opened yet.")
  else if State_eqb state_ OPENING then
    Some (mkError DomainError "Server is on opening; wait for a sec.")
  else if State_eqb state_ CLOSING then
    Some (mkError RuntimeError "Server is on closing.")
  else if State_eqb state_ CLOSED then
    Some (mkError RuntimeError "The server has been closed.")
  else Some (mkError RuntimeError "Unknown error, but not connected.").

(** [_Handshake(method)]: no caller passes [until], so nothing expires;
    what is left is the [once(...)] handler put on the channel. *)
Definition _Handshake : M t unit := set_onmessage (HandshakeOnce false).

(** [this.header_.get()]: the closure of the Singleton runs on the first
    call only.  It posts OPENING and calls [_Handshake]; the promise stays
    pending until a frame comes. *)
Definition header_get : M t (Promise Value) :=
  s <- get ;;
  match header_ s with
  | Some p => ret p
  | None =>
      emit [PostMessage (Sentinel OPENING)] ;;;
      _Handshake ;;;
      set_header Pending ;;;
      ret Pending
  end.

(** [getHeader()] *)
Definition getHeader : M t (Promise Value) := header_get.

(** The rest of the closure, once [_Handshake] has resolved with the
    frame: [JSON.parse(data)] and [wrapper.header]. *)
Definition header_of_frame (h : Host) (d : Data) : Promise Value :=
  match JSON_parse h d with
  | None => Rejected (mkError SyntaxError "JSON.parse")
  | Some wrapper =>
      match get_property wrapper "header" with
      | None => Rejected (mkError TypeError "wrapper.header")
      | Some v => Fulfilled v
      end
  end.

(** [open(provider)] up to [await this.header_.get()].  As in the earlier
    class the state test is the last arm of the chain.  Under node the
    chain first awaits [channel_.get()]; nothing of the object is read
    before that, so the method is taken from where it goes on. *)
Definition open (h : Host) (provider : option nat) : M t unit :=
  s <- get ;;
  (if negb (is_node h) then
     if document_defined h then
       throw (mkError DomainError
                "Error on WorkerServer.open(): this is not Worker.")
     else ret tt
   else if negb (is_worker_server h) then
     throw (mkError DomainError
              "Error on WorkerServer.open(): this is not Worker.")
   else if negb (State_eqb (state_ s) NONE) then
     throw (mkError DomainError
              "Error on WorkerServer.open(): the server has been opened yet.")
   else ret tt) ;;;
  set_state OPENING ;;;
  set_provider provider ;;;
  header_get ;;;
  set_opening (S (opening s)).

(** [open(provider)] after the header has settled. *)
Definition open_resume : M t unit :=
  s <- get ;;
  match opening s, header_ s with
  | S n, Some (Fulfilled _) =>
      set_opening n ;;;
      set_onmessage HandleMessage ;;;
      emit [PostMessage (Sentinel OPEN)] ;;;
      set_state OPEN
  | S n, Some (Rejected e) => set_opening n ;;; throw e
  | _, _ => ret tt
  end.

Definition close : M t unit :=
  s <- get ;;
  match inspectReady (state_ s) with
  | Some error => throw error
  | None =>
      set_state CLOSING ;;;
      communicator Communicator.destructor ;;;
      set_closing (S (closing s))
  end.

Definition close_resume : M t unit :=
  s <- get ;;
  match closing s with
  | 0 => ret tt
  | S n => set_closing n ;;; set_timers (S (timers s)) ;;; set_state CLOSED
  end.

Definition timeout : M t unit :=
  s <- get ;;
  match timers s with
  | 0 => ret tt
  | S n => set_timers n ;;;
           emit [PostMessage (Sentinel CLOSING); ChannelClose]
  end.

Definition _Handle_message (h : Host) (d : Data) : M t unit :=
  if is_sentinel CLOSING d then
    try_catch close (fun e => emit [UnhandledRejection e])
  else
    j <- parse h d ;; communicator (Communicator.replyData j).

(** A frame arriving on the channel goes to whatever [onmessage] is. *)
Definition deliver (h : Host) (d : Data) : M t unit :=
  s <- get ;;
  match onmessage s with
  | NoHandler => ret tt
  | HandshakeOnce false =>
      set_onmessage (HandshakeOnce true) ;;;
      set_header (header_of_frame h d)
  | HandshakeOnce true => ret tt
  | HandleMessage => _Handle_message h d
  end.

(** *** The class as a machine *)

Inductive Op : Type :=
| Open (provider : option nat)
| OpenResume
| GetHeader
| Close
| CloseResume
| TimerFires
| Frame (d : Data).

Definition exec (h : Host) (op : Op) : M t unit :=
  match op with
  | Open provider => open h provider
  | OpenResume => open_resume
  | GetHeader => getHeader ;;; ret tt
  | Close => close
  | CloseResume => close_resume
  | TimerFires => timeout
  | Frame d => deliver h d
  end.

Definition step (h : Host) (s : t) (op : Op) : t := snd (exec h op s).

Inductive reachable (h : Host) : t -> Prop :=
| reachable_init : reachable h init
| reachable_step s op : reachable h s -> reachable h (step h s op).

End WorkerServer.

(* ------------------------------------------------------------------ *)
(** ** WorkerConnector *)

(** Modelled from the spec: [IConnector.inspect] is not among the sources.
    It is the ready gate of section 4.5: null in OPEN, otherwise an error
    that matches the state, with a subcode of its own for each state. *)
Definition IConnector_inspect (state : State) (method : string)
  : option Error :=
  match state with
  | OPEN => None
  | NONE =>
      Some (mkError DomainError ("Error on " ++ method ++ ": state is NONE."))
  | CONNECTING =>
      Some (mkError DomainError
              ("Error on " ++ method ++ ": state is CONNECTING."))
  | CLOSING =>
      Some (mkError RuntimeError
              ("Error on " ++ method ++ ": state is CLOSING."))
  | CLOSED =>
      Some (mkError RuntimeError
              ("Error on " ++ method ++ ": state is CLOSED."))
  end.

Definition is_some {A : Type} (o : option A) : bool :=
  match o with Some _ => true | None => false end.

(** [await p] inside an async method: a rejection is thrown, a pending
    promise suspends the method ([None]). *)
Definition await {S A : Type} (p : Promise A) : M S (option A) :=
  match p with
  | Rejected e => throw e
  | Fulfilled a => ret (Some a)
  | Pending => ret None
  end.

Module WorkerConnector.

Record t : Type := mk {
  state_ : State;
  worker_ : option nat;       (* the Worker made by Compiler.execute *)
  connector_ : option nat;    (* the [resolve] kept by _Connect, by promise *)
  comm : Communicator.t;
  joining : nat;        (* close() calls waiting at [await ret] *)
  handle_closing : nat; (* _Handle_close() calls at [await this.destructor()] *)
  compiling : nat;      (* compile() calls at [await Compiler.compile(content)] *)
  next_promise : nat;
  log : list Action
}.

(** [new WorkerConnector(provider)] *)
Definition init : t := mk NONE None None Communicator.init 0 0 0 0 [].

Definition set_state (v : State) : M t unit :=
  modify (fun s => mk v (worker_ s) (connector_ s) (comm s) (joining s)
                      (handle_closing s) (compiling s) (next_promise s)
                      (log s)).
Definition set_worker (v : nat) : M t unit :=
  modify (fun s => mk (state_ s) (Some v) (connector_ s) (comm s) (joining s)
                      (handle_closing s) (compiling s) (next_promise s)
                      (log s)).
Definition set_connector (v : nat) : M t unit :=
  modify (fun s => mk (state_ s) (worker_ s) (Some v) (comm s) (joining s)
                      (handle_closing s) (compiling s) (next_promise s)
                      (log s)).
Definition set_comm (v : Communicator.t) : M t unit :=
  modify (fun s => mk (state_ s) (worker_ s) (connector_ s) v (joining s)
                      (handle_closing s) (compiling s) (next_promise s)
                      (log s)).
Definition set_joining (v : nat) : M t unit :=
  modify (fun s => mk (state_ s) (worker_ s) (connector_ s) (comm s) v
                      (handle_closing s) (compiling s) (next_promise s)
                      (log s)).
Definition set_handle_closing (v : nat) : M t unit :=
  modify (fun s => mk (state_ s) (worker_ s) (connector_ s) (comm s)
                      (joining s) v (compiling s) (next_promise s) (log s)).
Definition set_compiling (v : nat) : M t unit :=
  modify (fun s => mk (state_ s) (worker_ s) (connector_ s) (comm s)
                      (joining s) (handle_closing s) v (next_promise s)
                      (log s)).
Definition set_next_promise (v : nat) : M t unit :=
  modify (fun s => mk (state_ s) (worker_ s) (connector_ s) (comm s)
                      (joining s) (handle_closing s) (compiling s) v (log s)).
Definition emit (acts : list Action) : M t unit :=
  modify (fun s => mk (state_ s) (worker_ s) (connector_ s) (comm s)
                      (joining s) (handle_closing s) (compiling s)
                      (next_promise s) (log s ++ acts)).
Definition communicator (f : Communicator.t -> list Action * Communicator.t)
  : M t unit :=
  modify (fun s => let '(acts, c) := f (comm s) in
                   mk (state_ s) (worker_ s) (connector_ s) c (joining s)
                      (handle_closing s) (compiling s) (next_promise s)
                      (log s ++ acts)).

(** [inspectReady(method)] *)
Definition inspectReady (state_ : State) (method : string) : option Error :=
  IConnector_inspect state_ ("WorkerConnector." ++ method ++ "()").

(** [_Test_connection(method)] *)
Definition _Test_connection (method : string) : M t unit :=
  s <- get ;;
  if is_some (worker_ s) && negb (State_eqb (state_ s) CLOSED) then
    if State_eqb (state_ s) CONNECTING then
      throw (mkError DomainError
               ("Error on WorkerConnector." ++ method ++ "(): on connecting."))
    else if State_eqb (state_ s) OPEN then
      throw (mkError DomainError
               ("Error on WorkerConnector." ++ method
                  ++ "(): already connected."))
    else
      throw (mkError DomainError
               ("Error on WorkerConnector." ++ method ++ "(): closing."))
  else ret tt.

(** [_Connect(jsFile, headers)].  [execute] is what
    [Compiler.execute(jsFile, headers)] does: it returns a Worker or
    throws.  The promise made here is pending after a success and
    rejected after a failure. *)
Definition _Connect (execute : Res nat) : M t (Promise unit) :=
  s <- get ;;
  let p := next_promise s in
  set_next_promise (S p) ;;;
  try_catch
    (set_state CONNECTING ;;;
     w <- (fun s' => (execute, s')) ;;
     set_worker w ;;;
     set_connector p ;;;
     ret Pending)
    (fun exp =>
       set_state NONE ;;;
       emit [PromiseRejected p exp] ;;;
       ret (Rejected exp)).

(** [connect(jsFile, headers)]; [Ok None] is the method waiting for the
    connection promise. *)
Definition connect (execute : Res nat) : M t (option unit) :=
  _Test_connection "connect" ;;;
  p <- _Connect execute ;;
  await p.

(** [compile(content, headers)] up to [await Compiler.compile(content)]. *)
Definition compile : M t unit :=
  _Test_connection "compile" ;;;
  s <- get ;;
  set_compiling (S (compiling s)).

(** [compile(content, headers)] after it; [compiled] is what
    [Compiler.compile(content)] gave.  The error of [_Connect] is kept and
    thrown after the temporary file is removed. *)
Definition compile_resume (compiled : Res string) (execute : Res nat)
  : M t (option unit) :=
  s <- get ;;
  match compiling s with
  | 0 => ret None
  | S n =>
      set_compiling n ;;;
      (fun s' => (compiled, s')) ;;;
      p <- _Connect execute ;;
      await p
  end.

(** [close()] up to [await ret].  [join()] is a Communicator method that
    is not among the sources; by its use here its promise is settled by
    the destructor. *)
Definition close : M t unit :=
  s <- get ;;
  match inspectReady (state_ s) "WorkerConnector.close" with
  | Some error => throw error
  | None =>
      set_joining (S (joining s)) ;;;
      set_state CLOSING ;;;
      match worker_ s with
      | Some _ => emit [PostMessage (Sentinel CLOSING)]
      | None => throw (mkError TypeError "this.worker_")
      end
  end.

(** [sendData(invoke)] for the Call of uid [u]. *)
Definition sendData (u : nat) : M t unit :=
  s <- get ;;
  match worker_ s with
  | Some _ => emit [SendData u]
  | None => throw (mkError TypeError "this.worker_")
  end.

(** [_Handle_close()] up to [await this.destructor()]. *)
Definition _Handle_close : M t unit :=
  s <- get ;;
  communicator Communicator.destructor ;;;
  set_joining 0 ;;;
  set_handle_closing (S (handle_closing s)).

(** [_Handle_close()] after it. *)
Definition _Handle_close_resume : M t unit :=
  s <- get ;;
  match handle_closing s with
  | 0 => ret tt
  | S n => set_handle_closing n ;;; set_state CLOSED
  end.

(** [_Handle_message(evt)] *)
Definition _Handle_message (h : Host) (d : Data) : M t unit :=
  if is_sentinel OPEN d then
    set_state OPEN ;;;
    s <- get ;;
    match connector_ s with
    | Some p => emit [PromiseResolved p]
    | None => throw (mkError TypeError "this.connector_")
    end
  else if is_sentinel CLOSING d then _Handle_close
  else j <- parse h d ;; communicator (Communicator.replyData j).

(** A frame from a worker: [onmessage] is set on every worker made. *)
Definition deliver (h : Host) (d : Data) : M t unit :=
  s <- get ;;
  if is_some (worker_ s) then _Handle_message h d else ret tt.

(** Modelled from the spec: a Call issued through the driver (the
    [Driver] and [Communicator] classes are not among the sources).  It
    passes the ready gate, is registered in the pending-call table and is
    handed to [sendData]. *)
Definition call (listener : string) : M t nat :=
  s <- get ;;
  match inspectReady (state_ s) listener with
  | Some error => throw error
  | None =>
      let '(u, c) := Communicator.register (comm s) in
      set_comm c ;;;
      sendData u ;;;
      ret u
  end.

(** *** The class as a machine *)

Inductive Op : Type :=
| Connect (execute : Res nat)
| Compile
| CompileResume (compiled : Res string) (execute : Res nat)
| Close
| Frame (d : Data)
| HandleCloseResume
| CallOp (listener : string).

Definition exec (h : Host) (op : Op) : M t unit :=
  match op with
  | Connect execute => connect execute ;;; ret tt
  | Compile => compile
  | CompileResume compiled execute => compile_resume compiled execute ;;; ret tt
  | Close => close
  | Frame d => deliver h d
  | HandleCloseResume => _Handle_close_resume
  | CallOp listener => call listener ;;; ret tt
  end.

Definition step (h : Host) (s : t) (op : Op) : t := snd (exec h op s).

(** What a step takes for granted of the outside.  The worker posts OPEN
    once, after it was made: the frame comes while the connector is
    CONNECTING.  The connector is left alone while [compile()] waits for
    the compiler: [_Test_connection] would still pass when it goes on. *)
Definition timely (s : t) (op : Op) : bool :=
  match op with
  | Frame d => if is_sentinel OPEN d then State_eqb (state_ s) CONNECTING
               else true
  | CompileResume _ _ =>
      negb (is_some (worker_ s) && negb (State_eqb (state_ s) CLOSED))
  | _ => true
  end.

Inductive reachable (h : Host) : t -> Prop :=
| reachable_init : reachable h init
| reachable_step s op :
    reachable h s -> timely s op = true -> reachable h (step h s op).

(** [Compiler.execute] threw inside [_Connect]. *)
Definition is_failure (op : Op) : bool :=
  match op with
  | Connect (Throw _) | CompileResume _ (Throw _) => true
  | _ => false
  end.

Definition is_open (op : Op) : bool :=
  match op with
  | Connect _ | CompileResume _ _ => true
  | _ => false
  end.

(** Runs the operations in turn; [None] as soon as one of them throws. *)
Fixpoint run_all (h : Host) (ops : list Op) (s : t) : option t :=
  match ops with
  | [] => Some s
  | op :: ops' =>
      match exec h op s with
      | (Ok _, s') => run_all h ops' s'
      | (Throw _, _) => None
      end
  end.

End WorkerConnector.

(* ------------------------------------------------------------------ *)
(** ** WebServer *)

Module WebServer.

(** Modelled from the spec: [WebAcceptor] is not among the sources.
    [WebAcceptor.create(request, webSocket, header)] makes the per-client
    acceptor bound to that socket and carrying that header. *)
Record Acceptor : Set := WebAcceptor_create {
  request : nat;
  socket : nat;
  header : Value
}.

(** The user's [handler]: what awaiting [handler(acceptor)] gives. *)
Definition UserHandler : Type := Acceptor -> Res unit.

(** The two listeners put on "error": the one of [_Open], which captures
    the [reject] of its promise, and the empty one added on "listening". *)
Inductive ErrorListener : Set :=
| RejectOpen (p : nat)
| NoOp.

(** An [http.Server] or [https.Server] with the listeners given to [on].
    A "listening" listener is known by the promise of its [_Open].
    [listening] is the server's own property of that name: true from the
    moment it is bound to its port until its [close] is called. *)
Record Server : Type := mkServer {
  sid : nat;
  secure : bool;               (* made by https.createServer *)
  listening : bool;
  on_upgrade : list UserHandler;
  on_listening : list nat;
  on_error : list ErrorListener
}.

Definition createServer (id : nat) (https : bool) : Server :=
  mkServer id https false [] [] [].

Record t : Type := mk {
  state_ : State;
  options_ : option (string * option string);
  server_ : Server;
  protocol_running : bool; (* protocol_.close was not called yet *)
  next_server : nat;
  next_promise : nat;
  closing_protocol : nat;  (* _Close() waiting for protocol_.close *)
  closing_server : nat;    (* _Close() waiting for server_.close *)
  log : list Action
}.

Definition truthy (key : option string) : bool :=
  match key with
  | None => false
  | Some k => negb (String.eqb k "")
  end.

(** [new WebServer(key?, cert?)] *)
Definition init (key cert : option string) : t :=
  match key with
  | Some k =>
      if truthy key then
        mk NONE (Some (k, cert)) (createServer 0 true) true 1 0 0 0 []
      else mk NONE None (createServer 0 false) true 1 0 0 0 []
  | None => mk NONE None (createServer 0 false) true 1 0 0 0 []
  end.

Definition set_state (v : State) : M t unit :=
  modify (fun s => mk v (options_ s) (server_ s) (protocol_running s)
                      (next_server s) (next_promise s) (closing_protocol s)
                      (closing_server s) (log s)).
Definition set_server (v : Server) : M t unit :=
  modify (fun s => mk (state_ s) (options_ s) v (protocol_running s)
                      (next_server s) (next_promise s) (closing_protocol s)
                      (closing_server s) (log s)).
Definition set_protocol_running (v : bool) : M t unit :=
  modify (fun s => mk (state_ s) (options_ s) (server_ s) v
                      (next_server s) (next_promise s) (closing_protocol s)
                      (closing_server s) (log s)).
Definition set_next_server (v : nat) : M t unit :=
  modify (fun s => mk (state_ s) (options_ s) (server_ s) (protocol_running s)
                      v (next_promise s) (closing_protocol s)
                      (closing_server s) (log s)).
Definition set_next_promise (v : nat) : M t unit :=
  modify (fun s => mk (state_ s) (options_ s) (server_ s) (protocol_running s)
                      (next_server s) v (closing_protocol s)
                      (closing_server s) (log s)).
Definition set_closing_protocol (v : nat) : M t unit :=
  modify (fun s => mk (state_ s) (options_ s) (server_ s) (protocol_running s)
                      (next_server s) (next_promise s) v
                      (closing_server s) (log s)).
Definition set_closing_server (v : nat) : M t unit :=
  modify (fun s => mk (state_ s) (options_ s) (server_ s) (protocol_running s)
                      (next_server s) (next_promise s) (closing_protocol s)
                      v (log s)).
Definition emit (acts : list Action) : M t unit :=
  modify (fun s => mk (state_ s) (options_ s) (server_ s) (protocol_running s)
                      (next_server s) (next_promise s) (closing_protocol s)
                      (closing_server s) (log s ++ acts)).

(** [this.server_.on(...)] *)
Definition server_on_upgrade (f : UserHandler) : M t unit :=
  s <- get ;;
  let sv := server_ s in
  set_server (mkServer (sid sv) (secure sv) (listening sv)
                       (on_upgrade sv ++ [f]) (on_listening sv) (on_error sv)).
Definition server_on_listening (p : nat) : M t unit :=
  s <- get ;;
  let sv := server_ s in
  set_server (mkServer (sid sv) (secure sv) (listening sv)
                       (on_upgrade sv) (on_listening sv ++ [p]) (on_error sv)).
Definition server_on_error (l : ErrorListener) : M t unit :=
  s <- get ;;
  let sv := server_ s in
  set_server (mkServer (sid sv) (secure sv) (listening sv)
                       (on_upgrade sv) (on_listening sv) (on_error sv ++ [l])).
Definition set_listening (v : bool) : M t unit :=
  s <- get ;;
  let sv := server_ s in
  set_server (mkServer (sid sv) (secure sv) v
                       (on_upgrade sv) (on_listening sv) (on_error sv)).

(** The ports [listen] takes: the integers 0..65535. *)
Definition valid_port (port : nat) : bool := N.leb (N.of_nat port) 65535%N.
Arguments valid_port : simpl never.

(** The two errors [listen] throws, named by their codes; each message is
    the head of the one the host gives. *)
Definition ERR_SERVER_ALREADY_LISTEN : Error :=
  mkError PlainError
    "Listen method has been called more than once without closing.".
Definition ERR_SOCKET_BAD_PORT : Error :=
  mkError RangeError "options.port should be >= 0 and < 65536.".

(** [this.server_.listen(port)].  The call itself throws, and binds
    nothing, on a server that is listening already and for a port outside
    0..65535.  Whether the port can be bound is told later, by "listening"
    or by "error". *)
Definition server_listen (port : nat) : M t unit :=
  s <- get ;;
  if listening (server_ s) then throw ERR_SERVER_ALREADY_LISTEN
  else if negb (valid_port port) then throw ERR_SOCKET_BAD_PORT
  else emit [Listen (sid (server_ s)) port].

(** [_Open(port)].  [listen] is called inside the executor of the promise,
    with no [try] around it: when it throws the promise is rejected at
    once, and [open()], which awaits it, rejects with the same error;
    nothing is assigned to [state_] on that path.  Otherwise the promise
    is pending when [_Open] returns. *)
Definition _Open (port : nat) : M t nat :=
  s <- get ;;
  let p := next_promise s in
  set_next_promise (S p) ;;;
  server_on_listening p ;;;
  server_on_error (RejectOpen p) ;;;
  try_catch (server_listen port ;;; ret p)
            (fun e => emit [PromiseRejected p e] ;;; throw e).

(** [open(port, handler)] up to [await this._Open(port)]; the result is
    the promise it waits for.  A throw is [open()] rejecting before it
    waits for anything: by one of its three guards, or with the error of a
    [listen] that threw. *)
Definition open (port : nat) (handler : UserHandler) : M t nat :=
  s <- get ;;
  (if State_eqb (state_ s) OPEN then
     throw (mkError DomainError
              "Error on WebServer.open(): it has already been opened.")
   else if State_eqb (state_ s) OPENING then
     throw (mkError DomainError
              "Error on WebServer.open(): it's on opening, wait for a second.")
   else if State_eqb (state_ s) CLOSING then
     throw (mkError RuntimeError "Error on WebServer.open(): it's on closing.")
   else if State_eqb (state_ s) CLOSED then
     set_server (createServer (next_server s) (secure (server_ s))) ;;;
     set_next_server (S (next_server s))
   else ret tt) ;;;
  set_state OPENING ;;;
  server_on_upgrade handler ;;;
  _Open port.

(** One "listening" listener of [_Open]. *)
Definition listening_listener (p : nat) : M t unit :=
  set_state OPEN ;;;
  server_on_error NoOp ;;;
  emit [PromiseResolved p].

(** One "error" listener. *)
Definition error_listener (error : Error) (l : ErrorListener) : M t unit :=
  match l with
  | RejectOpen p => set_state NONE ;;; emit [PromiseRejected p error]
  | NoOp => ret tt
  end.

Fixpoint for_each {A : Type} (f : A -> M t unit) (l : list A) : M t unit :=
  match l with
  | [] => ret tt
  | a :: l' => f a ;;; for_each f l'
  end.

(** [server_] is bound to its port and emits "listening": every listener
    registered runs. *)
Definition emit_listening : M t unit :=
  set_listening true ;;;
  s <- get ;;
  for_each listening_listener (on_listening (server_ s)).

(** [server_] emits "error". *)
Definition emit_error (error : Error) : M t unit :=
  s <- get ;;
  for_each (error_listener error) (on_error (server_ s)).

(** [_Close()] up to the call of [protocol_.close]; its promise is
    pending.  [protocol_] is made once, in the constructor, and from its
    [close] on it is not running. *)
Definition _Close : M t unit :=
  s <- get ;;
  emit [ProtocolClose] ;;;
  set_protocol_running false ;;;
  set_closing_protocol (S (closing_protocol s)).

(** [close()] up to [await this._Close()]. *)
Definition close : M t unit :=
  s <- get ;;
  if negb (State_eqb (state_ s) OPEN) then
    throw (mkError DomainError
             "Error on WebServer.close(): server is not opened.")
  else
    set_state CLOSING ;;;
    _Close.

(** The callback of [protocol_.close]: it calls [server_.close]. *)
Definition protocol_closed : M t unit :=
  s <- get ;;
  match closing_protocol s with
  | 0 => ret tt
  | S n =>
      set_closing_protocol n ;;;
      emit [ServerClose (sid (server_ s))] ;;;
      set_listening false ;;;
      set_closing_server (S (closing_server s))
  end.

(** The callback of [server_.close] resolves [_Close()], and [close()]
    goes on to its last assignment. *)
Definition server_closed : M t unit :=
  s <- get ;;
  match closing_server s with
  | 0 => ret tt
  | S n => set_closing_server n ;;; set_state CLOSED
  end.

(** *** The first frame of an upgraded socket *)

Inductive SocketAction : Set :=
| SocketClose                   (* webSocket.close() *)
| Create (a : Acceptor)         (* WebAcceptor.create(...) returned a *)
| Handle (a : Acceptor).        (* handler(a) was called *)

(** A web socket handed over by [handleUpgrade]: the listeners given to
    [once("message", ...)] that have not run yet, by the [handler] they
    captured, and what was done on this socket so far. *)
Record WebSocket : Type := mkSocket {
  wid : nat;
  req : nat;
  once_message : list UserHandler;
  done : list SocketAction
}.

Definition socket_do (acts : list SocketAction) : M WebSocket unit :=
  modify (fun w => mkSocket (wid w) (req w) (once_message w) (done w ++ acts)).

Definition is_string (d : Data) : bool :=
  match d with Text _ => true | _ => false end.

(** The listener given to [webSocket.once("message", ...)].  After
    [webSocket.close()] for a frame that is no string there is no
    [return]: the [try] block runs on. *)
Definition on_first_message (h : Host) (handler : UserHandler) (data : Data)
  : M WebSocket unit :=
  (if negb (is_string data) then socket_do [SocketClose] else ret tt) ;;;
  try_catch
    (wrapper <- parse h data ;;
     hd <- match get_property wrapper "header" with
           | Some v => ret v
           | None => throw (mkError TypeError "wrapper.header")
           end ;;
     w <- get ;;
     let acceptor := WebAcceptor_create (req w) (wid w) hd in
     socket_do [Create acceptor] ;;;
     socket_do [Handle acceptor] ;;;
     (fun w' => (handler acceptor, w')))
    (fun _ => socket_do [SocketClose]).

(** The callback given to [protocol_.handleUpgrade] by one "upgrade"
    listener. *)
Definition handle_upgrade (handler : UserHandler) (request id : nat)
  : WebSocket :=
  mkSocket id request [handler] [].

(** [server_] emits "upgrade" for one request on one net socket: the web
    sockets that [protocol_] makes of it.  Every "upgrade" listener
    registered calls [protocol_.handleUpgrade] with that same net socket,
    in the order of registration.  A [protocol_] that was closed refuses
    each of these calls and makes no web socket.  A running one makes the
    web socket in the first call and hands it to the callback of the first
    listener; a second call with the same net socket throws, out of the
    listener and out of the emit, so no later listener is reached. *)
Definition emit_upgrade (s : t) (request id : nat) : list WebSocket :=
  if protocol_running s then
    match on_upgrade (server_ s) with
    | [] => []
    | handler :: _ => [handle_upgrade handler request id]
    end
  else [].

(** Whether that emit ends in the throw of a second [handleUpgrade]. *)
Definition emit_upgrade_throws (s : t) : bool :=
  protocol_running s && Nat.ltb 1 (length (on_upgrade (server_ s))).

Fixpoint run_once (h : Host) (data : Data) (l : list UserHandler)
  : M WebSocket unit :=
  match l with
  | [] => ret tt
  | f :: l' =>
      try_catch (on_first_message h f data) (fun _ => ret tt) ;;;
      run_once h data l'
  end.

(** The socket emits "message": the [once] listeners are taken off and
    run; [WebServer] has no other listener for it. *)
Definition socket_message (h : Host) (data : Data) : M WebSocket unit :=
  w <- get ;;
  modify (fun w => mkSocket (wid w) (req w) [] (done w)) ;;;
  run_once h data (once_message w).

(** *** The class as a machine *)

Inductive Op : Type :=
| Open (port : nat) (handler : UserHandler)
| Close
| Listening
| ErrorEvent (error : Error)
| ProtocolClosed
| ServerClosed.

Definition exec (op : Op) : M t unit :=
  match op with
  | Open port handler => open port handler ;;; ret tt
  | Close => close
  | Listening => emit_listening
  | ErrorEvent error => emit_error error
  | ProtocolClosed => protocol_closed
  | ServerClosed => server_closed
  end.

Definition step (s : t) (op : Op) : t := snd (exec op s).

(** "listening" answers the [listen] of [_Open]: it comes while the
    server is OPENING. *)
Definition timely (s : t) (op : Op) : bool :=
  match op with
  | Listening => State_eqb (state_ s) OPENING
  | _ => true
  end.

Inductive reachable : t -> Prop :=
| reachable_init key cert : reachable (init key cert)
| reachable_step s op :
    reachable s -> timely s op = true -> reachable (step s op).

Definition is_failure (op : Op) : bool :=
  match op with ErrorEvent _ => true | _ => false end.

Definition is_open (op : Op) : bool :=
  match op with Open _ _ => true | _ => false end.

End WebServer.

(* ------------------------------------------------------------------ *)
(** ** Moves of the lifecycle state *)



(** The ready gate as the description of the classes words it: nothing in
    OPEN, a DomainError before the server is open, a RuntimeError once it
    is closing or closed. *)
Definition gate_kind (s : State) : option ErrorName :=
  match s with
  | OPEN => None
  | NONE | OPENING => Some DomainError
  | CLOSING | CLOSED => Some RuntimeError
  end.

(* ------------------------------------------------------------------ *)
(** ** Hosts and frames of the examples *)

Definition dq : string := String (Ascii.ascii_of_nat 34) EmptyString.

(** [{"header":7}] *)
Definition envelope7 : string := "{" ++ dq ++ "header" ++ dq ++ ":7}".

(** [{"uid":u,"success":true,"value":5}] for u = 0 and u = 1 *)
Definition return0 : string :=
  "{" ++ dq ++ "uid" ++ dq ++ ":0," ++ dq ++ "success" ++ dq ++ ":true,"
      ++ dq ++ "value" ++ dq ++ ":5}".
Definition return1 : string :=
  "{" ++ dq ++ "uid" ++ dq ++ ":1," ++ dq ++ "success" ++ dq ++ ":true,"
      ++ dq ++ "value" ++ dq ++ ":5}".

Definition return_json (u : nat) (v : Json) : Json :=
  JObj [("uid", JNum u); ("success", JBool true); ("value", v)].

(** A parser for the texts used in the examples; on each of them it gives
    what [JSON.parse] gives.  A buffer is read as its text. *)
Definition known_texts : list (string * Json) :=
  [ (envelope7, JObj [("header", JNum 7)]);
    (return0, return_json 0 (JNum 5));
    (return1, return_json 1 (JNum 5));
    ("1", JNum 1);
    ("null", JNull) ].

Definition example_parse (d : Data) : option Json :=
  match d with
  | Text s | Binary s => assoc s known_texts
  | _ => None
  end.

(** A worker under node, started with the argument [1]. *)
Definition node_host : Host :=
  mkHost example_parse true false true true (Text "1") [].

(** A worker in a browser, its URL carrying [__m_pArgs=1]. *)
Definition browser_host : Host :=
  mkHost example_parse false false false false Undefined [("__m_pArgs", "1")].

(* ------------------------------------------------------------------ *)
(** ** Invariants of the machines *)

(** A connector that never made a worker is in NONE and has no
    [_Handle_close()] under way. *)
Definition conn_wf (s : WorkerConnector.t) : Prop :=
  WorkerConnector.worker_ s = None ->
  WorkerConnector.state_ s = NONE /\ WorkerConnector.handle_closing s = 0.


(* ------------------------------------------------------------------ *)
(** ** Example runs *)

Definition example_handler : WebServer.UserHandler := fun _ => Ok tt.

Definition listen_failed : Error := mkError RuntimeError "listen EADDRINUSE".

(** A web server that was opened on port 80 and closed again. *)
Definition web_closed : WebServer.t :=
  fold_left WebServer.step
    [WebServer.Open 80 example_handler; WebServer.Listening;
     WebServer.Close; WebServer.ProtocolClosed; WebServer.ServerClosed]
    (WebServer.init None None).

(** A worker server under node that was opened and received its header in
    the handshake. *)
Definition worker_server_open : WorkerServer.t :=
  fold_left (WorkerServer.step node_host)
    [WorkerServer.Open (Some 1); WorkerServer.Frame (Text envelope7);
     WorkerServer.OpenResume]
    WorkerServer.init.

(** The same server, closed again. *)
Definition worker_server_closed : WorkerServer.t :=
  fold_left (WorkerServer.step node_host)
    [WorkerServer.Open (Some 1); WorkerServer.Frame (Text envelope7);
     WorkerServer.OpenResume; WorkerServer.Close; WorkerServer.CloseResume]
    WorkerServer.init.

Definition worker_server_old_closed : WorkerServerOld.t :=
  fold_left (WorkerServerOld.step node_host)
    [WorkerServerOld.Open (Some 1); WorkerServerOld.Close;
     WorkerServerOld.CloseResume]
    WorkerServerOld.init.

(** A connector whose worker answered with OPEN. *)
Definition connector_open : WorkerConnector.t :=
  fold_left (WorkerConnector.step node_host)
    [WorkerConnector.Connect (Ok 1); WorkerConnector.Frame (Sentinel OPEN)]
    WorkerConnector.init.

Definition spawn_failed : Error := mkError RuntimeError "Worker: cannot start".

(* ------------------------------------------------------------------ *)
(** ** Using one connector again and again *)

(** [k] Calls, each answered by its Return before the next one is made;
    [text u] is the frame that answers the Call of uid [u]. *)
Fixpoint calls (text : nat -> string) (u k : nat) : list WorkerConnector.Op :=
  match k with
  | 0 => []
  | S k' =>
      WorkerConnector.CallOp "plus" :: WorkerConnector.Frame (Text (text u))
        :: calls text (S u) k'
  end.

(** One connection on worker [w]: connect, the worker posts OPEN, the
    Calls, close, the worker posts CLOSING, [_Handle_close] finishes. *)
Definition session (text : nat -> string) (w u k : nat)
  : list WorkerConnector.Op :=
  ([WorkerConnector.Connect (Ok w); WorkerConnector.Frame (Sentinel OPEN)]
     ++ calls text u k
     ++ [WorkerConnector.Close; WorkerConnector.Frame (Sentinel CLOSING);
         WorkerConnector.HandleCloseResume])%list.

(** [n] connections one after the other, the first of them numbered [i]. *)
Fixpoint sessions (text : nat -> string) (i n k : nat)
  : list WorkerConnector.Op :=
  match n with
  | 0 => []
  | S n' => (session text i (i * k) k ++ sessions text (S i) n' k)%list
  end.

(** What these operations are expected to leave in the log. *)
Fixpoint calls_log (value : nat -> Json) (u k : nat) : list Action :=
  match k with
  | 0 => []
  | S k' =>
      SendData u :: ReplyData (return_json u (value u))
        :: CallResolved u (Some (value u)) :: calls_log value (S u) k'
  end.

Definition session_log (value : nat -> Json) (p u k : nat) : list Action :=
  ([PromiseResolved p] ++ calls_log value u k
     ++ [PostMessage (Sentinel CLOSING); Destructor []])%list.

Fixpoint sessions_log (value : nat -> Json) (i n k : nat) : list Action :=
  match n with
  | 0 => []
  | S n' => (session_log value i (i * k) k ++ sessions_log value (S i) n' k)%list
  end.

(** Nothing was rejected and no pending call was failed. *)
Definition benign (a : Action) : bool :=
  match a with
  | CallRejected _ _ | PromiseRejected _ _ | UnhandledRejection _ => false
  | Destructor (_ :: _) => false
  | _ => true
  end.

(** The frame that answers the Call of uid [u] in the example: uids 0 and
    1 are used. *)
Definition example_text (u : nat) : string :=
  if Nat.eqb u 0 then return0 else return1.

Definition is_teardown (a : Action) : bool :=
  match a with ChannelClose => true | _ => false end.


(* ------------------------------------------------------------------ *)
(** ** Runs of the machines *)

Definition web_run (ops : list WebServer.Op) (s : WebServer.t) : WebServer.t :=
  fold_left WebServer.step ops s.

Definition connector_run (h : Host) (ops : list WorkerConnector.Op)
           (s : WorkerConnector.t) : WorkerConnector.t :=
  fold_left (WorkerConnector.step h) ops s.

Definition server_run (h : Host) (ops : list WorkerServer.Op)
           (s : WorkerServer.t) : WorkerServer.t :=
  fold_left (WorkerServer.step h) ops s.

Definition old_server_run (h : Host) (ops : list WorkerServerOld.Op)
           (s : WorkerServerOld.t) : WorkerServerOld.t :=
  fold_left (WorkerServerOld.step h) ops s.

(** One listener on "error" is the one of [_Open]. *)
Definition has_reject (l : list WebServer.ErrorListener) : bool :=
  existsb (fun x => match x with WebServer.RejectOpen _ => true
                              | WebServer.NoOp => false end) l.

(** A web server that has had an [open()] accepted keeps the "error"
    listener of [_Open]; before that it is in NONE with nothing going on. *)
Definition web_listened (s : WebServer.t) : Prop :=
  has_reject (WebServer.on_error (WebServer.server_ s)) = true
  \/ (WebServer.state_ s = NONE
      /\ WebServer.on_listening (WebServer.server_ s) = []
      /\ WebServer.closing_protocol s = 0
      /\ WebServer.closing_server s = 0).

(** [open()], "listening", [close()] and the two callbacks of [_Close]. *)
Definition web_cycle (port : nat) (handler : WebServer.UserHandler)
  : list WebServer.Op :=
  [WebServer.Open port handler; WebServer.Listening; WebServer.Close;
   WebServer.ProtocolClosed; WebServer.ServerClosed].

Fixpoint web_cycles (port : nat) (handler : WebServer.UserHandler) (n : nat)
  : list WebServer.Op :=
  match n with
  | 0 => []
  | S n' => (web_cycle port handler ++ web_cycles port handler n')%list
  end.

(** What the cycle on server object [i], with promise [i], leaves in the
    log. *)
Definition web_cycle_log (port i : nat) : list Action :=
  [Listen i port; PromiseResolved i; ProtocolClose; ServerClose i].

Fixpoint web_cycles_log (port i n : nat) : list Action :=
  match n with
  | 0 => []
  | S n' => (web_cycle_log port i ++ web_cycles_log port (S i) n')%list
  end.

(** [n] times: [open()] and then the "error" event of the listener. *)
Fixpoint failed_starts (port : nat) (handler : WebServer.UserHandler)
         (error : Error) (n : nat) : list WebServer.Op :=
  match n with
  | 0 => []
  | S n' =>
      WebServer.Open port handler :: WebServer.ErrorEvent error
        :: failed_starts port handler error n'
  end.

(** How often an action of some kind is in a log. *)
Definition count (p : Action -> bool) (l : list Action) : nat :=
  length (filter p l).

(** The action is the posting of the sentinel [st]. *)
Definition is_post (st : State) (a : Action) : bool :=
  match a with
  | PostMessage d => is_sentinel st d
  | _ => false
  end.

(** [w.header] is [undefined] and reading it does not throw. *)
Definition lacks_header (w : Json) : bool :=
  match w with
  | JNull => false
  | JObj fields => negb (is_some (assoc "header" fields))
  | _ => true
  end.

Definition flag (b : bool) : nat := if b then 1 else 0.

(** Under node, what a worker server of WorkerServer.ts has under way and
    has posted follows from its state: at most one [open()] waits, and only
    in OPENING; one [close()] waits exactly in CLOSING; OPEN was posted
    exactly once the server got that far; and in CLOSED either the timer of
    [close()] is still set or it has posted CLOSING and closed the channel,
    once. *)
Definition server_tidy (s : WorkerServer.t) : Prop :=
  WorkerServer.opening s <= flag (State_eqb (WorkerServer.state_ s) OPENING)
  /\ WorkerServer.closing s = flag (State_eqb (WorkerServer.state_ s) CLOSING)
  /\ WorkerServer.timers s + count is_teardown (WorkerServer.log s)
     = flag (State_eqb (WorkerServer.state_ s) CLOSED)
  /\ count (is_post CLOSING) (WorkerServer.log s)
     = count is_teardown (WorkerServer.log s)
  /\ count (is_post OPEN) (WorkerServer.log s)
     = flag (Nat.leb (rank OPEN) (rank (WorkerServer.state_ s))).

(** The same for the earlier class, which never waits in [open()]. *)
Definition old_server_tidy (s : WorkerServerOld.t) : Prop :=
  WorkerServerOld.closing s
  = flag (State_eqb (WorkerServerOld.state_ s) CLOSING)
  /\ WorkerServerOld.timers s + count is_teardown (WorkerServerOld.log s)
     = flag (State_eqb (WorkerServerOld.state_ s) CLOSED)
  /\ count (is_post CLOSING) (WorkerServerOld.log s)
     = count is_teardown (WorkerServerOld.log s)
  /\ count (is_post OPEN) (WorkerServerOld.log s)
     = flag (Nat.leb (rank OPEN) (rank (WorkerServerOld.state_ s))).

(** On any host: OPENING was posted exactly when the header was asked for,
    and a handler is on the channel only after that. *)
Definition server_handshaken (s : WorkerServer.t) : Prop :=
  count (is_post OPENING) (WorkerServer.log s)
  = flag (is_some (WorkerServer.header_ s))
  /\ (WorkerServer.onmessage s <> WorkerServer.NoHandler ->
      is_some (WorkerServer.header_ s) = true).

(** What a worker connector is seen to do: it posts nothing but CLOSING,
    and nothing that belongs to a channel's end or to a web server. *)
Definition connector_action (a : Action) : bool :=
  match a with
  | PostMessage d => is_sentinel CLOSING d
  | ChannelClose | Listen _ _ | ProtocolClose | ServerClose _ => false
  | _ => true
  end.

Definition is_protocol_close (a : Action) : bool :=
  match a with ProtocolClose => true | _ => false end.

Definition is_server_close (a : Action) : bool :=
  match a with ServerClose _ => true | _ => false end.

Definition is_reply (a : Action) : bool :=
  match a with ReplyData _ => true | _ => false end.

Definition handles (om : WorkerServer.Handler) : bool :=
  match om with WorkerServer.HandleMessage => true | _ => false end.

(** [_Handle_message] is on the channel, and frames were handed to
    [replyData], only after OPEN was posted. *)
Definition server_announced (s : WorkerServer.t) : Prop :=
  flag (handles (WorkerServer.onmessage s))
  <= count (is_post OPEN) (WorkerServer.log s)
  /\ (1 <= count is_reply (WorkerServer.log s) ->
      1 <= count (is_post OPEN) (WorkerServer.log s)).

Definition old_server_announced (s : WorkerServerOld.t) : Prop :=
  flag (WorkerServerOld.onmessage s)
  <= count (is_post OPEN) (WorkerServerOld.log s)
  /\ (1 <= count is_reply (WorkerServerOld.log s) ->
      1 <= count (is_post OPEN) (WorkerServerOld.log s)).
(* ================================================================== *)
(** * Properties *)

(** Case analysis over what a method body branches on. *)
Ltac conn_cases :=
  unfold bind, parse, WorkerConnector.communicator, modify; cbn;
  repeat (match goal with
          | |- context [JSON_parse ?h ?d] => destruct (JSON_parse h d)
          | |- context [Communicator.replyData ?j ?c] =>
              destruct (Communicator.replyData j c)
          | |- context [Communicator.register ?c] =>
              destruct (Communicator.register c)
          end; cbn).

(** [open()] of a web server, by the cases of [listen]. *)
Ltac web_open_cases :=
  unfold WebServer.open, WebServer._Open, WebServer.server_listen, try_catch,
    bind, get;
  cbn;
  repeat (match goal with
          | |- context [WebServer.valid_port ?p] =>
              destruct (WebServer.valid_port p)
          end; cbn).


(** ** The ready gate *)

Lemma State_eqb_eq (a b : State) : State_eqb a b = true <-> a = b.
Proof. destruct a, b; simpl; split; intro H; try reflexivity; discriminate H. Qed.

Lemma State_eqb_neq (a b : State) : a <> b -> State_eqb a b = false.
Proof.
  intro H. destruct (State_eqb a b) eqn:E; [|reflexivity].
  apply State_eqb_eq in E. contradiction.
Qed.

(** C1. In both worker servers [inspectReady()] returns null exactly in
    OPEN; in NONE, OPENING, CLOSING and CLOSED it returns an error, and two
    states never share their error. *)
Theorem inspectReady_null_iff_open :
  forall s : State,
    (WorkerServerOld.inspectReady s = None <-> s = OPEN)
    /\ (WorkerServer.inspectReady s = None <-> s = OPEN)
    /\ (forall s', WorkerServerOld.inspectReady s
                   = WorkerServerOld.inspectReady s' -> s = s')
    /\ (forall s', WorkerServer.inspectReady s
                   = WorkerServer.inspectReady s' -> s = s').
Proof.
  intro s. repeat split.
  - destruct s; simpl; intro H; try discriminate H; reflexivity.
  - intros ->. reflexivity.
  - destruct s; simpl; intro H; try discriminate H; reflexivity.
  - intros ->. reflexivity.
  - intros s'. destruct s, s'; simpl; intro H; try reflexivity; discriminate H.
  - intros s'. destruct s, s'; simpl; intro H; try reflexivity; discriminate H.
Qed.

Lemma inspectReady_null_iff_open_witness :
  WorkerServerOld.inspectReady OPEN = None
  /\ WorkerServer.inspectReady OPEN = None
  /\ CLOSING = CLOSING.
Proof.
  destruct (inspectReady_null_iff_open OPEN) as [[_ Hold] [[_ Hnew] _]].
  destruct (inspectReady_null_iff_open CLOSING) as [_ [_ [Hinj _]]].
  split; [apply Hold; reflexivity|].
  split; [apply Hnew; reflexivity|].
  apply Hinj. reflexivity.
Defined.

(** C10. The two implementations of [inspectReady()] return the same
    thing in every state, message included: null in OPEN, a DomainError in
    NONE and OPENING, a RuntimeError in CLOSING and CLOSED. *)
Theorem inspectReady_old_new_agree :
  forall s : State,
    WorkerServerOld.inspectReady s = WorkerServer.inspectReady s
    /\ option_map name (WorkerServerOld.inspectReady s) = gate_kind s
    /\ option_map name (WorkerServer.inspectReady s) = gate_kind s.
Proof. intro s. destruct s; repeat split. Qed.

(** ** [close()] outside OPEN *)

(** C2. In NONE, OPENING, CLOSING and CLOSED, [close()] of each class
    throws the error of its ready gate before it does anything else: the
    fields, the state among them, and the log are what they were. *)
Theorem close_outside_open_throws :
  (forall s : WebServer.t,
      WebServer.state_ s <> OPEN ->
      WebServer.close s
      = (Throw (mkError DomainError
                  "Error on WebServer.close(): server is not opened."), s))
  /\ (forall s : WorkerServerOld.t,
         WorkerServerOld.state_ s <> OPEN ->
         exists e, WorkerServerOld.inspectReady (WorkerServerOld.state_ s) = Some e
                   /\ WorkerServerOld.close s = (Throw e, s))
  /\ (forall s : WorkerServer.t,
         WorkerServer.state_ s <> OPEN ->
         exists e, WorkerServer.inspectReady (WorkerServer.state_ s) = Some e
                   /\ WorkerServer.close s = (Throw e, s))
  /\ (forall s : WorkerConnector.t,
         WorkerConnector.state_ s <> OPEN ->
         exists e, WorkerConnector.inspectReady (WorkerConnector.state_ s)
                     "WorkerConnector.close" = Some e
                   /\ WorkerConnector.close s = (Throw e, s)).
Proof.
  repeat split.
  - intros s H. unfold WebServer.close, bind, get.
    rewrite (State_eqb_neq _ _ H). reflexivity.
  - intros s H. unfold WorkerServerOld.close, bind, get.
    destruct (WorkerServerOld.state_ s); try contradiction;
      eexists; split; reflexivity.
  - intros s H. unfold WorkerServer.close, bind, get.
    destruct (WorkerServer.state_ s); try contradiction;
      eexists; split; reflexivity.
  - intros s H. unfold WorkerConnector.close, bind, get.
    destruct (WorkerConnector.state_ s); try contradiction;
      eexists; split; reflexivity.
Qed.

Lemma close_outside_open_throws_witness :
  WebServer.close (WebServer.init None None)
  = (Throw (mkError DomainError
              "Error on WebServer.close(): server is not opened."),
     WebServer.init None None)
  /\ (exists e, WorkerServerOld.inspectReady NONE = Some e
                /\ WorkerServerOld.close WorkerServerOld.init
                   = (Throw e, WorkerServerOld.init))
  /\ (exists e, WorkerServer.inspectReady NONE = Some e
                /\ WorkerServer.close WorkerServer.init
                   = (Throw e, WorkerServer.init))
  /\ (exists e, WorkerConnector.inspectReady NONE "WorkerConnector.close"
                = Some e
                /\ WorkerConnector.close WorkerConnector.init
                   = (Throw e, WorkerConnector.init)).
Proof.
  destruct close_outside_open_throws as [Hweb [Hold [Hnew Hconn]]].
  split; [apply (Hweb (WebServer.init None None)); simpl; discriminate|].
  split; [apply (Hold WorkerServerOld.init); simpl; discriminate|].
  split; [apply (Hnew WorkerServer.init); simpl; discriminate|].
  apply (Hconn WorkerConnector.init); simpl; discriminate.
Defined.

(** ** Moves of the state, step by step *)



Lemma web_emit_listening (s : WebServer.t) :
  WebServer.emit_listening s
  = WebServer.for_each WebServer.listening_listener
      (WebServer.on_listening (WebServer.server_ s))
      (snd (WebServer.set_listening true s)).
Proof. reflexivity. Qed.

Lemma web_listening_state (l : list nat) (s : WebServer.t) :
  WebServer.state_ (snd (WebServer.for_each WebServer.listening_listener l s))
  = match l with [] => WebServer.state_ s | _ :: _ => OPEN end.
Proof.
  revert s. induction l as [|p l IH]; intro s; [reflexivity|].
  cbn [WebServer.for_each]. unfold bind at 1.
  destruct (WebServer.listening_listener p s) as [r s1] eqn:E.
  unfold WebServer.listening_listener, WebServer.set_state,
    WebServer.server_on_error, WebServer.set_server, WebServer.emit,
    bind, modify, get in E.
  inversion E; subst; clear E.
  rewrite IH. destruct l; reflexivity.
Qed.

Lemma web_error_state (e : Error) (l : list WebServer.ErrorListener)
      (s : WebServer.t) :
  WebServer.state_ (snd (WebServer.for_each (WebServer.error_listener e) l s))
  = if existsb (fun x => match x with WebServer.RejectOpen _ => true
                                    | WebServer.NoOp => false end) l
    then NONE else WebServer.state_ s.
Proof.
  revert s. induction l as [|x l IH]; intro s; [reflexivity|].
  cbn [WebServer.for_each existsb]. unfold bind at 1.
  destruct x as [p|];
    unfold WebServer.error_listener, WebServer.set_state, WebServer.emit,
      bind, modify, ret; cbn [orb]; rewrite IH; cbn [WebServer.state_].
  - destruct (existsb _ l); reflexivity.
  - reflexivity.
Qed.



Lemma conn_step_wf (h : Host) (s : WorkerConnector.t) (op : WorkerConnector.Op) :
  conn_wf s -> conn_wf (WorkerConnector.step h s op).
Proof.
  unfold conn_wf, WorkerConnector.step.
  destruct s as [st w c cm j hc cg np lg];
    cbn [WorkerConnector.worker_ WorkerConnector.state_
         WorkerConnector.handle_closing].
  intro Hwf.
  assert (Hn : w = None -> st = NONE /\ hc = 0) by exact Hwf. clear Hwf.
  destruct w as [w|];
    [clear Hn | destruct (Hn eq_refl) as [-> ->]; clear Hn];
    destruct op as [ex| |cp ex| |d| |l]; cbn [WorkerConnector.exec].
  - destruct st, ex; cbn; intro H; try discriminate H; split; reflexivity.
  - destruct st; cbn; intro H; discriminate H.
  - destruct cg, cp, ex; cbn; intro H; try discriminate H; split; reflexivity.
  - destruct st; cbn; intro H; discriminate H.
  - destruct d as [x| | |]; [destruct x| | |]; destruct c; cbn; conn_cases;
      intro H; discriminate H.
  - destruct hc; cbn; intro H; discriminate H.
  - destruct st; cbn; conn_cases; intro H; discriminate H.
  - destruct ex; cbn; intro H; try discriminate H; split; reflexivity.
  - cbn. intros _. split; reflexivity.
  - destruct cg, cp, ex; cbn; intro H; try discriminate H; split; reflexivity.
  - cbn. intros _. split; reflexivity.
  - cbn. intros _. split; reflexivity.
  - cbn. intros _. split; reflexivity.
  - cbn. intros _. split; reflexivity.
Qed.











(** ** A start that fails *)




(** ** Opening again *)

Lemma web_step_fresh (s : WebServer.t) (op : WebServer.Op) :
  WebServer.sid (WebServer.server_ s) < WebServer.next_server s ->
  WebServer.sid (WebServer.server_ (WebServer.step s op))
  < WebServer.next_server (WebServer.step s op).
Proof.
  intro H. unfold WebServer.step.
  destruct op as [port handler| | |e| |]; cbn [WebServer.exec].
  - destruct s as [st o [i sec li ou ol oe] run ns np cp cs lg].
    destruct st, li; web_open_cases; cbn in *; lia.
  - destruct s as [st o sv run ns np cp cs lg]. destruct st; cbn in *; lia.
  - rewrite web_emit_listening.
    generalize (WebServer.on_listening (WebServer.server_ s)). intro l.
    change (WebServer.sid
              (WebServer.server_ (snd (WebServer.set_listening true s)))
            < WebServer.next_server (snd (WebServer.set_listening true s)))
      in H.
    revert H. generalize (snd (WebServer.set_listening true s)).
    clear s. intros s H.
    revert s H. induction l as [|p l IH]; intros s H; [exact H|].
    cbn [WebServer.for_each]. unfold bind at 1.
    destruct (WebServer.listening_listener p s) as [r s1] eqn:E.
    unfold WebServer.listening_listener, WebServer.set_state,
      WebServer.server_on_error, WebServer.set_server, WebServer.emit,
      bind, modify, get in E.
    inversion E; subst; clear E. apply IH. exact H.
  - unfold WebServer.emit_error, bind, get.
    generalize (WebServer.on_error (WebServer.server_ s)). intro l.
    revert s H. induction l as [|x l IH]; intros s H; [exact H|].
    cbn [WebServer.for_each]. unfold bind at 1.
    destruct x as [p|]; cbn; apply IH; exact H.
  - destruct s as [st o sv run ns np [|cp] cs lg]; cbn in *; exact H.
  - destruct s as [st o sv run ns np cp [|cs] lg]; cbn in *; exact H.
Qed.

Lemma web_reachable_fresh (s : WebServer.t) :
  WebServer.reachable s ->
  WebServer.sid (WebServer.server_ s) < WebServer.next_server s.
Proof.
  induction 1 as [key cert|s op _ IH _].
  - unfold WebServer.init. destruct key as [k|]; [destruct (WebServer.truthy _)|];
      cbn; lia.
  - apply web_step_fresh, IH.
Qed.

(** C5, as the classes have it.  [open()] on a closed web server, for a
    port in 0..65535, does not throw: a server object that was never used
    before replaces the old one, the state is OPENING, and "listening" then
    makes it OPEN and resolves the promise, with the same listeners as after
    the first [open()] of a new web server.  A worker server under node
    does not open again: outside NONE its [open()] throws a DomainError and
    changes nothing. *)
Theorem open_again_from_closed :
  (forall (s : WebServer.t) (port : nat) (handler : WebServer.UserHandler),
      WebServer.reachable s ->
      WebServer.state_ s = CLOSED ->
      WebServer.valid_port port = true ->
      let r := WebServer.open port handler s in
      let p := WebServer.next_promise s in
      fst r = Ok p
      /\ WebServer.state_ (snd r) = OPENING
      /\ WebServer.server_ (snd r)
         = WebServer.mkServer (WebServer.next_server s)
             (WebServer.secure (WebServer.server_ s)) false
             [handler] [p] [WebServer.RejectOpen p]
      /\ WebServer.sid (WebServer.server_ (snd r))
         <> WebServer.sid (WebServer.server_ s)
      /\ WebServer.log (snd r)
         = (WebServer.log s ++ [Listen (WebServer.next_server s) port])%list
      /\ WebServer.state_ (snd (WebServer.emit_listening (snd r))) = OPEN
      /\ WebServer.log (snd (WebServer.emit_listening (snd r)))
         = (WebServer.log (snd r) ++ [PromiseResolved p])%list)
  /\ (forall (key cert : option string) (port : nat)
             (handler : WebServer.UserHandler),
         WebServer.valid_port port = true ->
         let s := WebServer.init key cert in
         let r := WebServer.open port handler s in
         fst r = Ok 0
         /\ WebServer.state_ (snd r) = OPENING
         /\ WebServer.server_ (snd r)
            = WebServer.mkServer 0 (WebServer.secure (WebServer.server_ s))
                false [handler] [0] [WebServer.RejectOpen 0]
         /\ WebServer.log (snd r) = [Listen 0 port]
         /\ WebServer.state_ (snd (WebServer.emit_listening (snd r))) = OPEN
         /\ WebServer.log (snd (WebServer.emit_listening (snd r)))
            = [Listen 0 port; PromiseResolved 0])
  /\ (forall (h : Host) (s : WorkerServer.t) (provider : option nat),
         is_node h = true ->
         WorkerServer.state_ s <> NONE ->
         exists e, name e = DomainError
                   /\ WorkerServer.open h provider s = (Throw e, s))
  /\ (forall (h : Host) (s : WorkerServerOld.t) (provider : option nat),
         is_node h = true ->
         WorkerServerOld.state_ s <> NONE ->
         exists e, name e = DomainError
                   /\ WorkerServerOld.open h provider s = (Throw e, s)).
Proof.
  split; [|split; [|split]].
  - intros s port handler Hr Hs Hv.
    pose proof (web_reachable_fresh s Hr) as Hf.
    destruct s as [st o sv run ns np cp cs lg].
    cbn [WebServer.state_] in Hs. subst st. cbv zeta.
    unfold WebServer.emit_listening, WebServer.open, WebServer._Open,
      WebServer.server_listen, try_catch, bind, get.
    cbn. rewrite Hv. cbn in *. repeat split. lia.
  - intros key cert port handler Hv. cbv zeta.
    unfold WebServer.emit_listening, WebServer.open, WebServer._Open,
      WebServer.server_listen, try_catch, bind, get, WebServer.init.
    destruct key as [k|]; [destruct (WebServer.truthy _)|];
      cbn; rewrite Hv; cbn; repeat split.
  - intros h s provider Hn Hs.
    unfold WorkerServer.open, bind, get. rewrite Hn. cbn.
    destruct (is_worker_server h); cbn;
      [|eexists; split; [|reflexivity]; reflexivity].
    destruct (WorkerServer.state_ s); try contradiction;
      eexists; (split; [|reflexivity]); reflexivity.
  - intros h s provider Hn Hs.
    unfold WorkerServerOld.open, bind, get. rewrite Hn. cbn.
    destruct (process_send_defined h); cbn;
      [|eexists; split; [|reflexivity]; reflexivity].
    destruct (WorkerServerOld.state_ s); try contradiction;
      eexists; (split; [|reflexivity]); reflexivity.
Qed.

Lemma web_closed_reachable : WebServer.reachable web_closed.
Proof.
  unfold web_closed. cbn [fold_left].
  repeat (apply WebServer.reachable_step; [|reflexivity]).
  apply WebServer.reachable_init.
Qed.

Lemma open_again_from_closed_witness :
  (let r := WebServer.open 80 example_handler web_closed in
   fst r = Ok 1
   /\ WebServer.state_ (snd r) = OPENING
   /\ WebServer.server_ (snd r)
      = WebServer.mkServer 1 false false [example_handler] [1]
          [WebServer.RejectOpen 1]
   /\ WebServer.state_ (snd (WebServer.emit_listening (snd r))) = OPEN)
  /\ (exists e, name e = DomainError
                /\ WorkerServer.open node_host (Some 2) worker_server_closed
                   = (Throw e, worker_server_closed)).
Proof.
  destruct open_again_from_closed as [Hweb [_ [Hnew _]]].
  split.
  - destruct (Hweb web_closed 80 example_handler web_closed_reachable eq_refl
                eq_refl)
      as [H1 [H2 [H3 [_ [_ [H6 _]]]]]].
    repeat split; assumption.
  - apply Hnew; [reflexivity | simpl; discriminate].
Defined.

(** C5 as stated fails for the worker servers: under node a closed worker
    server rejects [open()] with a DomainError and stays CLOSED. *)
Lemma open_again_counterexample :
  WorkerServer.state_ worker_server_closed = CLOSED
  /\ WorkerServer.open node_host (Some 2) worker_server_closed
     = (Throw (mkError DomainError
                 "Error on WorkerServer.open(): the server has been opened yet."),
        worker_server_closed)
  /\ WorkerServerOld.state_ worker_server_old_closed = CLOSED
  /\ WorkerServerOld.open node_host (Some 2) worker_server_old_closed
     = (Throw (mkError DomainError
                 "Error on WorkerServer.open(): the server has been opened yet."),
        worker_server_old_closed).
Proof. repeat split. Qed.

(** ** Using one connector again *)

Lemma run_all_app (h : Host) (a b : list WorkerConnector.Op)
      (s : WorkerConnector.t) :
  WorkerConnector.run_all h (a ++ b) s
  = match WorkerConnector.run_all h a s with
    | Some s' => WorkerConnector.run_all h b s'
    | None => None
    end.
Proof.
  revert s. induction a as [|op a IH]; intro s; [reflexivity|].
  cbn [app WorkerConnector.run_all].
  destruct (WorkerConnector.exec h op s) as [[x|e] s']; [apply IH | reflexivity].
Qed.

Lemma replyData_return (u n : nat) (v : Json) :
  Communicator.replyData (return_json u v) (Communicator.mk [u] n)
  = ([ReplyData (return_json u v); CallResolved u (Some v)],
     Communicator.mk [] n).
Proof.
  unfold Communicator.replyData, Communicator.complete, Communicator.remove.
  cbn. rewrite Nat.eqb_refl. reflexivity.
Qed.

Lemma calls_run (h : Host) (text : nat -> string) (value : nat -> Json)
      (k : nat) :
  forall (u w : nat) (c : option nat) (j hc cg np : nat) (lg : list Action),
    (forall x, u <= x < u + k ->
               JSON_parse h (Text (text x)) = Some (return_json x (value x))) ->
    WorkerConnector.run_all h (calls text u k)
      (WorkerConnector.mk OPEN (Some w) c (Communicator.mk [] u) j hc cg np lg)
    = Some (WorkerConnector.mk OPEN (Some w) c (Communicator.mk [] (u + k))
              j hc cg np (lg ++ calls_log value u k)).
Proof.
  induction k as [|k IH]; intros u w c j hc cg np lg Hp.
  - cbn. rewrite Nat.add_0_r, app_nil_r. reflexivity.
  - cbn [calls WorkerConnector.run_all].
    cbn [WorkerConnector.exec].
    assert (E1 : (WorkerConnector.call "plus";;; ret tt)
                   (WorkerConnector.mk OPEN (Some w) c (Communicator.mk [] u)
                      j hc cg np lg)
                 = (Ok tt, WorkerConnector.mk OPEN (Some w) c
                             (Communicator.mk [u] (S u)) j hc cg np
                             (lg ++ [SendData u]))) by reflexivity.
    rewrite E1.
    assert (E2 : WorkerConnector.deliver h (Text (text u))
                   (WorkerConnector.mk OPEN (Some w) c
                      (Communicator.mk [u] (S u)) j hc cg np (lg ++ [SendData u]))
                 = (Ok tt, WorkerConnector.mk OPEN (Some w) c
                             (Communicator.mk [] (S u)) j hc cg np
                             ((lg ++ [SendData u])
                                ++ [ReplyData (return_json u (value u));
                                    CallResolved u (Some (value u))]))).
    { unfold WorkerConnector.deliver, WorkerConnector._Handle_message,
        bind, get, parse. cbn -[Communicator.replyData return_json].
      rewrite (Hp u) by lia.
      unfold WorkerConnector.communicator, modify, ret.
      cbn -[Communicator.replyData return_json].
      rewrite replyData_return. reflexivity. }
    rewrite E2.
    rewrite (IH (S u)) by (intros x Hx; apply Hp; lia).
    rewrite <- !app_assoc. cbn [app calls_log].
    replace (S u + k) with (u + S k) by lia. reflexivity.
Qed.

Lemma session_run (h : Host) (text : nat -> string) (value : nat -> Json)
      (st : State) (w0 : option nat) (c : option nat)
      (w u k np : nat) (lg : list Action) :
  (w0 = None \/ st = CLOSED) ->
  (forall x, u <= x < u + k ->
             JSON_parse h (Text (text x)) = Some (return_json x (value x))) ->
  WorkerConnector.run_all h (session text w u k)
    (WorkerConnector.mk st w0 c (Communicator.mk [] u) 0 0 0 np lg)
  = Some (WorkerConnector.mk CLOSED (Some w) (Some np)
            (Communicator.mk [] (u + k)) 0 0 0 (S np)
            (lg ++ session_log value np u k)).
Proof.
  intros Hidle Hp. unfold session.
  rewrite run_all_app.
  assert (E : WorkerConnector.run_all h
                [WorkerConnector.Connect (Ok w);
                 WorkerConnector.Frame (Sentinel OPEN)]
                (WorkerConnector.mk st w0 c (Communicator.mk [] u) 0 0 0 np lg)
              = Some (WorkerConnector.mk OPEN (Some w) (Some np)
                        (Communicator.mk [] u) 0 0 0 (S np)
                        (lg ++ [PromiseResolved np]))).
  { destruct Hidle as [-> | ->]; [|destruct w0]; reflexivity. }
  rewrite E. rewrite run_all_app.
  rewrite (calls_run h text value k u w (Some np) 0 0 0 (S np) _ Hp).
  unfold session_log. cbn. rewrite <- !app_assoc. reflexivity.
Qed.

Lemma sessions_run (h : Host) (text : nat -> string) (value : nat -> Json)
      (k n : nat) :
  forall (i : nat) (st : State) (w0 c : option nat) (lg : list Action),
    (w0 = None \/ st = CLOSED) ->
    (forall x, i * k <= x < (i + S n) * k ->
               JSON_parse h (Text (text x)) = Some (return_json x (value x))) ->
    WorkerConnector.run_all h (sessions text i (S n) k)
      (WorkerConnector.mk st w0 c (Communicator.mk [] (i * k)) 0 0 0 i lg)
    = Some (WorkerConnector.mk CLOSED (Some (i + n)) (Some (i + n))
              (Communicator.mk [] ((i + S n) * k)) 0 0 0 (S (i + n))
              (lg ++ sessions_log value i (S n) k)).
Proof.
  induction n as [|n IH]; intros i st w0 c lg Hidle Hp.
  - cbn [sessions sessions_log]. rewrite !app_nil_r.
    rewrite (session_run h text value st w0 c i (i * k) k i lg Hidle)
      by (intros x Hx; apply Hp; lia).
    replace (i + 0) with i by lia.
    replace ((i + 1) * k) with (i * k + k) by lia. reflexivity.
  - change (sessions text i (S (S n)) k)
      with (session text i (i * k) k ++ sessions text (S i) (S n) k)%list.
    rewrite run_all_app.
    rewrite (session_run h text value st w0 c i (i * k) k i lg Hidle)
      by (intros x Hx; apply Hp; lia).
    replace (i * k + k) with (S i * k) by lia.
    rewrite (IH (S i)) by (try (right; reflexivity); intros x Hx; apply Hp; lia).
    change (sessions_log value i (S (S n)) k)
      with (session_log value i (i * k) k
              ++ sessions_log value (S i) (S n) k)%list.
    rewrite <- app_assoc.
    replace (S i + n) with (i + S n) by lia.
    replace ((S i + S n) * k) with ((i + S (S n)) * k) by lia.
    reflexivity.
Qed.

Lemma calls_log_benign (value : nat -> Json) (k u : nat) :
  forallb benign (calls_log value u k) = true.
Proof. revert u. induction k as [|k IH]; intro u; [reflexivity | apply IH]. Qed.

Lemma sessions_log_benign (value : nat -> Json) (k n i : nat) :
  forallb benign (sessions_log value i n k) = true.
Proof.
  revert i. induction n as [|n IH]; intro i; [reflexivity|].
  cbn [sessions_log]. unfold session_log.
  rewrite !forallb_app, calls_log_benign, IH. reflexivity.
Qed.

Lemma calls_log_resolved (value : nat -> Json) (k u x : nat) :
  u <= x < u + k -> In (CallResolved x (Some (value x))) (calls_log value u k).
Proof.
  revert u. induction k as [|k IH]; intros u Hx; [lia|].
  cbn [calls_log]. destruct (Nat.eq_dec x u) as [-> | Hne].
  - right. right. left. reflexivity.
  - right. right. right. apply IH. lia.
Qed.

Lemma sessions_log_resolved (value : nat -> Json) (k n i x : nat) :
  i * k <= x < (i + n) * k ->
  In (CallResolved x (Some (value x))) (sessions_log value i n k).
Proof.
  revert i. induction n as [|n IH]; intros i Hx; [lia|].
  cbn [sessions_log]. apply in_or_app.
  destruct (Nat.lt_ge_cases x (S i * k)) as [Hlt | Hge].
  - left. unfold session_log. apply in_or_app. right. apply in_or_app. left.
    apply calls_log_resolved. lia.
  - right. apply IH. lia.
Qed.

(** C6.  On a new connector the cycle of connect, [k] Calls and close can
    be run any number of times: no operation throws, every Call is resolved
    with the value of its Return, nothing is rejected, no pending call is
    failed by the destructor, and after the last close the connector is
    CLOSED with an empty pending-call table. *)
Theorem connector_reuse :
  forall (h : Host) (text : nat -> string) (value : nat -> Json) (n k : nat),
    (forall u, u < S n * k ->
               JSON_parse h (Text (text u)) = Some (return_json u (value u))) ->
    WorkerConnector.run_all h (sessions text 0 (S n) k) WorkerConnector.init
    = Some (WorkerConnector.mk CLOSED (Some n) (Some n)
              (Communicator.mk [] (S n * k)) 0 0 0 (S n)
              (sessions_log value 0 (S n) k))
    /\ forallb benign (sessions_log value 0 (S n) k) = true
    /\ (forall u, u < S n * k ->
                  In (CallResolved u (Some (value u)))
                     (sessions_log value 0 (S n) k)).
Proof.
  intros h text value n k Hp. split; [|split].
  - unfold WorkerConnector.init, Communicator.init.
    exact (sessions_run h text value k n 0 NONE None None []
             (or_introl eq_refl)
             (fun x Hx => Hp x (proj2 Hx))).
  - apply sessions_log_benign.
  - intros u Hu. apply sessions_log_resolved. lia.
Qed.

Lemma connector_reuse_witness :
  WorkerConnector.run_all node_host (sessions example_text 0 2 1)
    WorkerConnector.init
  = Some (WorkerConnector.mk CLOSED (Some 1) (Some 1) (Communicator.mk [] 2)
            0 0 0 2 (sessions_log (fun _ => JNum 5) 0 2 1))
  /\ forallb benign (sessions_log (fun _ => JNum 5) 0 2 1) = true
  /\ (forall u, u < 2 ->
                In (CallResolved u (Some (JNum 5)))
                   (sessions_log (fun _ => JNum 5) 0 2 1)).
Proof.
  apply (connector_reuse node_host example_text (fun _ => JNum 5) 1 1).
  intros u Hu. destruct u as [|[|u]]; [reflexivity | reflexivity | simpl in Hu; lia].
Defined.

(** ** The CLOSING sentinel *)




(** ** The header of a worker server *)

(** C8, as the classes have it.  The earlier class parses the argument of
    the process (node) or the URL parameter [__m_pArgs] (browser) on the
    first read of [headers] and keeps the value: a later read returns it
    whatever the host holds.  WorkerServer.ts does not read the
    environment: the first [getHeader()] posts OPENING and waits for a
    frame, the header is the [header] field of that frame, and every later
    [getHeader()] returns the same promise and does nothing else. *)
Theorem header_read_once :
  (forall (h : Host) (s : WorkerServerOld.t) (j : Json),
      WorkerServerOld.headers_ s = None ->
      JSON_parse h (if is_node h then argv2 h
                    else URLVariables_get h "__m_pArgs") = Some j ->
      WorkerServerOld.headers h s
      = (Ok j, snd (WorkerServerOld.set_headers j s)))
  /\ (forall (h : Host) (s : WorkerServerOld.t) (j : Json),
         WorkerServerOld.headers_ s = Some j ->
         WorkerServerOld.headers h s = (Ok j, s))
  /\ (forall s : WorkerServer.t,
         WorkerServer.header_ s = None ->
         let r := WorkerServer.getHeader s in
         fst r = Ok Pending
         /\ WorkerServer.header_ (snd r) = Some Pending
         /\ WorkerServer.onmessage (snd r) = WorkerServer.HandshakeOnce false
         /\ WorkerServer.log (snd r)
            = (WorkerServer.log s ++ [PostMessage (Sentinel OPENING)])%list)
  /\ (forall (h : Host) (s : WorkerServer.t) (d : Data),
         WorkerServer.onmessage s = WorkerServer.HandshakeOnce false ->
         let r := WorkerServer.deliver h d s in
         fst r = Ok tt
         /\ WorkerServer.header_ (snd r)
            = Some (WorkerServer.header_of_frame h d)
         /\ WorkerServer.onmessage (snd r) = WorkerServer.HandshakeOnce true
         /\ WorkerServer.log (snd r) = WorkerServer.log s)
  /\ (forall (s : WorkerServer.t) (p : Promise Value),
         WorkerServer.header_ s = Some p ->
         WorkerServer.getHeader s = (Ok p, s)).
Proof.
  split; [|split; [|split; [|split]]].
  - intros h [st p hd om cm cl tm lg] j Hs Hp. cbn in Hs. subst hd.
    unfold WorkerServerOld.headers, bind, get, parse.
    cbn [WorkerServerOld.headers_]. rewrite Hp. reflexivity.
  - intros h [st p hd om cm cl tm lg] j Hs. cbn in Hs. subst hd. reflexivity.
  - intros [st p hd om cm o cl tm lg] Hs. cbn in Hs. subst hd.
    repeat split.
  - intros h [st p hd om cm o cl tm lg] d Hs. cbn in Hs. subst om.
    repeat split.
  - intros [st p hd om cm o cl tm lg] pr Hs. cbn in Hs. subst hd. reflexivity.
Qed.

Lemma header_read_once_witness :
  WorkerServerOld.headers node_host WorkerServerOld.init
  = (Ok (JNum 1), snd (WorkerServerOld.set_headers (JNum 1) WorkerServerOld.init))
  /\ WorkerServerOld.headers browser_host
       (snd (WorkerServerOld.headers node_host WorkerServerOld.init))
     = (Ok (JNum 1), snd (WorkerServerOld.headers node_host WorkerServerOld.init))
  /\ fst (WorkerServer.getHeader WorkerServer.init) = Ok Pending
  /\ WorkerServer.getHeader
       (snd (WorkerServer.deliver node_host (Text envelope7)
               (snd (WorkerServer.getHeader WorkerServer.init))))
     = (Ok (Fulfilled (Some (JNum 7))),
        snd (WorkerServer.deliver node_host (Text envelope7)
               (snd (WorkerServer.getHeader WorkerServer.init)))).
Proof.
  destruct header_read_once as [Hfirst [Hlater [Hget [_ Hagain]]]].
  split; [apply (Hfirst node_host WorkerServerOld.init); reflexivity|].
  split; [apply (Hlater browser_host); reflexivity|].
  split; [apply (Hget WorkerServer.init); reflexivity|].
  apply Hagain. reflexivity.
Defined.

(** C8 as stated fails for WorkerServer.ts: started under node with the
    argument [1], it has no header until a frame comes, and then its header
    is the 7 of the frame [{"header":7}], not the 1 of its environment. *)
Lemma header_from_handshake_counterexample :
  let s1 := snd (WorkerServer.getHeader WorkerServer.init) in
  let s2 := snd (WorkerServer.deliver node_host (Text envelope7) s1) in
  JSON_parse node_host (argv2 node_host) = Some (JNum 1)
  /\ WorkerServer.log s1 = [PostMessage (Sentinel OPENING)]
  /\ fst (WorkerServer.getHeader s1) = Ok Pending
  /\ fst (WorkerServer.getHeader s2) = Ok (Fulfilled (Some (JNum 7))).
Proof. repeat split. Qed.

(** ** The first frame of a web socket *)



(** X15, beside C9: [webSocket.close()] for a frame that is no string is not
    followed by a [return].  A buffer whose bytes decode is closed and
    still gets its acceptor and the call of the handler. *)
Remark binary_frame_falls_through :
  forall (h : Host) (handler : WebServer.UserHandler) (request id : nat)
         (b : string) (wrapper : Json) (hd : Value),
    JSON_parse h (Binary b) = Some wrapper ->
    get_property wrapper "header" = Some hd ->
    let a := WebServer.WebAcceptor_create request id hd in
    WebServer.done
      (snd (WebServer.socket_message h (Binary b)
              (WebServer.handle_upgrade handler request id)))
    = ([WebServer.SocketClose; WebServer.Create a; WebServer.Handle a]
         ++ (if is_throw (handler a) then [WebServer.SocketClose] else []))%list.
Proof.
  intros h handler request id b wrapper hd Hp Hh.
  unfold WebServer.socket_message, WebServer.handle_upgrade, bind, get, modify.
  cbn [WebServer.wid WebServer.req WebServer.done WebServer.once_message
       WebServer.run_once].
  unfold bind, try_catch, WebServer.on_first_message, bind, try_catch, parse,
    get, ret.
  rewrite Hp. cbn. rewrite Hh. cbn.
  destruct (handler _) as [[]|e]; reflexivity.
Qed.

(* ================================================================== *)
(** * Further properties of the classes *)

(** ** WebServer *)

(** X1.  [open()] on a web server that is OPEN, OPENING or CLOSING throws
    (a DomainError, a DomainError, a RuntimeError) before it touches
    anything: no listener is added, [listen] is not called. *)
Theorem web_open_busy_throws :
  forall (s : WebServer.t) (port : nat) (handler : WebServer.UserHandler),
    (WebServer.state_ s = OPEN ->
     WebServer.open port handler s
     = (Throw (mkError DomainError
                 "Error on WebServer.open(): it has already been opened."), s))
    /\ (WebServer.state_ s = OPENING ->
        WebServer.open port handler s
        = (Throw (mkError DomainError
                    "Error on WebServer.open(): it's on opening, wait for a second."),
           s))
    /\ (WebServer.state_ s = CLOSING ->
        WebServer.open port handler s
        = (Throw (mkError RuntimeError
                    "Error on WebServer.open(): it's on closing."), s)).
Proof.
  intros [st o sv run ns np cp cs lg] port handler.
  repeat split; intro H; cbn in H; subst st; reflexivity.
Qed.

Lemma web_open_busy_throws_witness :
  let s := web_run [WebServer.Open 80 example_handler; WebServer.Listening]
                   (WebServer.init None None) in
  WebServer.open 81 example_handler s
  = (Throw (mkError DomainError
              "Error on WebServer.open(): it has already been opened."), s).
Proof.
  exact (proj1 (web_open_busy_throws
                  (web_run [WebServer.Open 80 example_handler;
                            WebServer.Listening] (WebServer.init None None))
                  81 example_handler) eq_refl).
Defined.

Lemma web_listening_frame (l : list nat) (s : WebServer.t) :
  let s' := snd (WebServer.for_each WebServer.listening_listener l s) in
  has_reject (WebServer.on_error (WebServer.server_ s'))
  = has_reject (WebServer.on_error (WebServer.server_ s))
  /\ WebServer.on_listening (WebServer.server_ s')
     = WebServer.on_listening (WebServer.server_ s)
  /\ WebServer.on_upgrade (WebServer.server_ s')
     = WebServer.on_upgrade (WebServer.server_ s)
  /\ WebServer.secure (WebServer.server_ s')
     = WebServer.secure (WebServer.server_ s)
  /\ WebServer.sid (WebServer.server_ s') = WebServer.sid (WebServer.server_ s)
  /\ WebServer.options_ s' = WebServer.options_ s
  /\ WebServer.closing_protocol s' = WebServer.closing_protocol s
  /\ WebServer.closing_server s' = WebServer.closing_server s.
Proof.
  revert s. induction l as [|p l IH]; intro s; [cbn; repeat split|].
  cbn [WebServer.for_each]. unfold bind at 1.
  destruct (WebServer.listening_listener p s) as [r s1] eqn:E.
  unfold WebServer.listening_listener, WebServer.set_state,
    WebServer.server_on_error, WebServer.set_server, WebServer.emit,
    bind, modify, get in E.
  inversion E; subst; clear E.
  match goal with
    | |- context [WebServer.for_each _ l ?x] =>
        destruct (IH x) as [H1 [H2 [H3 [H4 [H5 [H6 [H7 H8]]]]]]]
    end.
  cbn in *.
  repeat split; try assumption.
  rewrite H1. unfold has_reject. rewrite existsb_app. cbn.
  rewrite Bool.orb_false_r. reflexivity.
Qed.

Lemma web_error_frame (e : Error) (l : list WebServer.ErrorListener)
      (s : WebServer.t) :
  let s' := snd (WebServer.for_each (WebServer.error_listener e) l s) in
  WebServer.server_ s' = WebServer.server_ s
  /\ WebServer.options_ s' = WebServer.options_ s
  /\ WebServer.closing_protocol s' = WebServer.closing_protocol s
  /\ WebServer.closing_server s' = WebServer.closing_server s.
Proof.
  revert s. induction l as [|x l IH]; intro s; [cbn; repeat split|].
  cbn [WebServer.for_each]. unfold bind at 1.
  destruct x as [p|];
    unfold WebServer.error_listener, WebServer.set_state, WebServer.emit,
      bind, modify, ret.
  - match goal with
    | |- context [WebServer.for_each _ l ?x] =>
        destruct (IH x) as [H1 [H2 [H3 H4]]]
    end.
    cbn in *. repeat split; assumption.
  - apply IH.
Qed.

Lemma web_error_running (e : Error) (l : list WebServer.ErrorListener)
      (s : WebServer.t) :
  WebServer.protocol_running
    (snd (WebServer.for_each (WebServer.error_listener e) l s))
  = WebServer.protocol_running s.
Proof.
  revert s. induction l as [|x l IH]; intro s; [reflexivity|].
  cbn [WebServer.for_each]. unfold bind at 1.
  destruct x as [p|];
    unfold WebServer.error_listener, WebServer.set_state, WebServer.emit,
      bind, modify, ret; rewrite IH; reflexivity.
Qed.

Lemma web_listening_running (l : list nat) (s : WebServer.t) :
  WebServer.protocol_running
    (snd (WebServer.for_each WebServer.listening_listener l s))
  = WebServer.protocol_running s.
Proof.
  revert s. induction l as [|p l IH]; intro s; [reflexivity|].
  cbn [WebServer.for_each]. unfold bind at 1.
  destruct (WebServer.listening_listener p s) as [r s1] eqn:E.
  unfold WebServer.listening_listener, WebServer.set_state,
    WebServer.server_on_error, WebServer.set_server, WebServer.emit,
    bind, modify, get in E.
  inversion E; subst; clear E.
  rewrite IH. reflexivity.
Qed.

Lemma web_step_listened (s : WebServer.t) (op : WebServer.Op) :
  web_listened s -> web_listened (WebServer.step s op).
Proof.
  unfold web_listened, WebServer.step.
  destruct op as [port handler| | |e| |]; cbn [WebServer.exec]; intro H.
  - destruct s as [st o [i sec li ou ol oe] run ns np cp cs lg].
    unfold has_reject in *.
    destruct st, li; web_open_cases; cbn in *; try exact H; left;
      try (rewrite existsb_app; cbn; apply Bool.orb_true_r); reflexivity.
  - destruct s as [st o sv run ns np cp cs lg].
    destruct st; cbn in *; try exact H.
    destruct H as [H | [H _]]; [left; exact H | discriminate H].
  - rewrite web_emit_listening.
    destruct (web_listening_frame
                (WebServer.on_listening (WebServer.server_ s))
                (snd (WebServer.set_listening true s)))
      as [H1 [H2 [_ [_ [_ [_ [H7 H8]]]]]]].
    cbv zeta in *.
    destruct H as [H | [Hs [Hl [Hp Hc]]]].
    + left. rewrite H1. exact H.
    + right. rewrite Hl. cbn. repeat split; assumption.
  - unfold WebServer.emit_error, bind, get.
    destruct (web_error_frame e (WebServer.on_error (WebServer.server_ s)) s)
      as [H1 [_ [H3 H4]]].
    cbv zeta in *. rewrite web_error_state, H1, H3, H4.
    destruct H as [H | [Hs [Hl [Hp Hc]]]].
    + left. exact H.
    + right. fold (has_reject (WebServer.on_error (WebServer.server_ s))).
      destruct (has_reject _); repeat split; assumption.
  - destruct s as [st o sv run ns np [|cp] cs lg]; cbn in *; [exact H|].
    destruct H as [H | [_ [_ [H _]]]]; [left; exact H | discriminate H].
  - destruct s as [st o sv run ns np cp [|cs] lg]; cbn in *; [exact H|].
    destruct H as [H | [_ [_ [_ H]]]]; [left; exact H | discriminate H].
Qed.

Lemma web_run_listened (ops : list WebServer.Op) (s : WebServer.t) :
  web_listened s -> web_listened (web_run ops s).
Proof.
  revert s. induction ops as [|op ops IH]; intros s H; [exact H|].
  apply IH, web_step_listened, H.
Qed.

Lemma web_init_listened (key cert : option string) :
  web_listened (WebServer.init key cert).
Proof.
  right. unfold WebServer.init.
  destruct key as [k|]; [destruct (WebServer.truthy _)|]; repeat split.
Qed.

(** X2.  The "error" listener of [_Open] is never taken off, and the empty
    listener added on "listening" does not replace it: whatever was done
    with a web server, once it has left NONE an "error" event of its
    listener puts it back to NONE, also while it is OPEN. *)
Theorem web_error_resets_any_state :
  forall (key cert : option string) (ops : list WebServer.Op) (error : Error),
    let s := web_run ops (WebServer.init key cert) in
    WebServer.state_ s <> NONE ->
    WebServer.state_ (WebServer.step s (WebServer.ErrorEvent error)) = NONE.
Proof.
  intros key cert ops error s Hs.
  pose proof (web_run_listened ops _ (web_init_listened key cert)) as H.
  fold s in H.
  unfold WebServer.step. cbn [WebServer.exec].
  unfold WebServer.emit_error, bind, get. rewrite web_error_state.
  destruct H as [H | [H _]]; [|contradiction].
  unfold has_reject in H. rewrite H. reflexivity.
Qed.

Lemma web_error_resets_any_state_witness :
  let s := web_run [WebServer.Open 80 example_handler; WebServer.Listening]
                   (WebServer.init None None) in
  WebServer.state_ s = OPEN
  /\ WebServer.state_ (WebServer.step s (WebServer.ErrorEvent listen_failed))
     = NONE.
Proof.
  split; [reflexivity|].
  apply (web_error_resets_any_state None None
           [WebServer.Open 80 example_handler; WebServer.Listening]
           listen_failed).
  simpl. discriminate.
Defined.

Lemma web_run_app (a b : list WebServer.Op) (s : WebServer.t) :
  web_run (a ++ b) s = web_run b (web_run a s).
Proof. apply fold_left_app. Qed.

Lemma web_closed_cycles (port : nat) (handler : WebServer.UserHandler)
      (n : nat) :
  WebServer.valid_port port = true ->
  forall (i : nat) (o : option (string * option string)) (sv : WebServer.Server)
         (run : bool) (lg : list Action),
    web_run (web_cycles port handler (S n))
            (WebServer.mk CLOSED o sv run i i 0 0 lg)
    = WebServer.mk CLOSED o
        (WebServer.mkServer (i + n) (WebServer.secure sv) false
           [handler] [i + n] [WebServer.RejectOpen (i + n); WebServer.NoOp])
        false (S (i + n)) (S (i + n)) 0 0
        (lg ++ web_cycles_log port i (S n)).
Proof.
  intro Hv.
  assert (E : forall i o sv run lg,
             web_run (web_cycle port handler)
                     (WebServer.mk CLOSED o sv run i i 0 0 lg)
             = WebServer.mk CLOSED o
                 (WebServer.mkServer i (WebServer.secure sv) false
                    [handler] [i] [WebServer.RejectOpen i; WebServer.NoOp])
                 false (S i) (S i) 0 0 (lg ++ web_cycle_log port i)).
  { intros i o sv run lg.
    unfold web_run, web_cycle. cbn [fold_left].
    unfold WebServer.step, WebServer.exec, WebServer.open, WebServer._Open,
      WebServer.server_listen, try_catch, bind, get.
    cbn. rewrite Hv. cbn. rewrite <- !app_assoc. reflexivity. }
  induction n as [|n IH]; intros i o sv run lg.
  - change (web_cycles port handler 1)
      with (web_cycle port handler ++ [])%list.
    rewrite app_nil_r, E, Nat.add_0_r. cbn [web_cycles_log].
    rewrite app_nil_r. reflexivity.
  - change (web_cycles port handler (S (S n)))
      with (web_cycle port handler ++ web_cycles port handler (S n))%list.
    rewrite web_run_app, E, IH. cbn [WebServer.secure].
    change (web_cycles_log port i (S (S n)))
      with (web_cycle_log port i ++ web_cycles_log port (S i) (S n))%list.
    rewrite <- app_assoc.
    replace (S i + n) with (i + S n) by lia. reflexivity.
Qed.

Lemma web_first_cycle (key cert : option string) (port : nat)
      (handler : WebServer.UserHandler) :
  WebServer.valid_port port = true ->
  web_run (web_cycle port handler) (WebServer.init key cert)
  = WebServer.mk CLOSED (WebServer.options_ (WebServer.init key cert))
      (WebServer.mkServer 0
         (WebServer.secure (WebServer.server_ (WebServer.init key cert)))
         false [handler] [0] [WebServer.RejectOpen 0; WebServer.NoOp])
      false 1 1 0 0 (web_cycle_log port 0).
Proof.
  intro Hv.
  unfold web_run, web_cycle. cbn [fold_left].
  unfold WebServer.step, WebServer.exec, WebServer.open, WebServer._Open,
    WebServer.server_listen, try_catch, bind, get, WebServer.init.
  destruct key as [k|]; [destruct (WebServer.truthy _)|];
    cbn; rewrite Hv; reflexivity.
Qed.

(** X3.  A web server can be opened and closed any number of times on a
    port in 0..65535.  Each cycle after the first listens on a server
    object of its own, which carries the listeners of that [open()] only;
    every [open()] is resolved; [protocol_] is closed before the server
    object each time; and the server ends CLOSED with nothing under way,
    its last server object no longer listening and its [protocol_], which
    is never made again, closed. *)
Theorem web_server_reuse :
  forall (key cert : option string) (port : nat)
         (handler : WebServer.UserHandler) (n : nat),
    WebServer.valid_port port = true ->
    web_run (web_cycles port handler (S n)) (WebServer.init key cert)
    = WebServer.mk CLOSED (WebServer.options_ (WebServer.init key cert))
        (WebServer.mkServer n
           (WebServer.secure (WebServer.server_ (WebServer.init key cert)))
           false [handler] [n] [WebServer.RejectOpen n; WebServer.NoOp])
        false (S n) (S n) 0 0 (web_cycles_log port 0 (S n)).
Proof.
  intros key cert port handler n Hv.
  destruct n as [|n].
  - change (web_cycles port handler 1)
      with (web_cycle port handler ++ [])%list.
    rewrite app_nil_r, (web_first_cycle key cert port handler Hv).
    cbn [web_cycles_log]. rewrite app_nil_r. reflexivity.
  - change (web_cycles port handler (S (S n)))
      with (web_cycle port handler ++ web_cycles port handler (S n))%list.
    rewrite web_run_app, (web_first_cycle key cert port handler Hv),
      (web_closed_cycles port handler n Hv).
    reflexivity.
Qed.

Lemma web_server_reuse_witness :
  web_run (web_cycles 80 example_handler 3) (WebServer.init None None)
  = WebServer.mk CLOSED None
      (WebServer.mkServer 2 false false [example_handler] [2]
         [WebServer.RejectOpen 2; WebServer.NoOp])
      false 3 3 0 0
      [Listen 0 80; PromiseResolved 0; ProtocolClose; ServerClose 0;
       Listen 1 80; PromiseResolved 1; ProtocolClose; ServerClose 1;
       Listen 2 80; PromiseResolved 2; ProtocolClose; ServerClose 2].
Proof.
  exact (web_server_reuse None None 80 example_handler 2 eq_refl).
Defined.

Lemma web_failed_start (port : nat) (handler : WebServer.UserHandler)
      (e : Error) (s : WebServer.t) :
  WebServer.valid_port port = true ->
  WebServer.state_ s = NONE ->
  WebServer.listening (WebServer.server_ s) = false ->
  let s' := web_run [WebServer.Open port handler; WebServer.ErrorEvent e] s in
  WebServer.state_ s' = NONE
  /\ WebServer.listening (WebServer.server_ s') = false
  /\ WebServer.on_upgrade (WebServer.server_ s')
     = (WebServer.on_upgrade (WebServer.server_ s) ++ [handler])%list
  /\ WebServer.sid (WebServer.server_ s') = WebServer.sid (WebServer.server_ s)
  /\ WebServer.protocol_running s' = WebServer.protocol_running s.
Proof.
  intros Hv Hs Hl. cbv zeta. unfold web_run. cbn [fold_left].
  set (s1 := WebServer.step s (WebServer.Open port handler)).
  assert (H1 : WebServer.server_ s1
               = WebServer.mkServer (WebServer.sid (WebServer.server_ s))
                   (WebServer.secure (WebServer.server_ s)) false
                   (WebServer.on_upgrade (WebServer.server_ s) ++ [handler])
                   (WebServer.on_listening (WebServer.server_ s)
                      ++ [WebServer.next_promise s])
                   (WebServer.on_error (WebServer.server_ s)
                      ++ [WebServer.RejectOpen (WebServer.next_promise s)])
               /\ WebServer.protocol_running s1
                  = WebServer.protocol_running s).
  { subst s1. destruct s as [st o [i sec li ou ol oe] run ns np cp cs lg].
    cbn in Hs, Hl. subst st li.
    unfold WebServer.step, WebServer.exec, WebServer.open, WebServer._Open,
      WebServer.server_listen, try_catch, bind, get.
    cbn. rewrite Hv. split; reflexivity. }
  destruct H1 as [H1 Hp].
  unfold WebServer.step. cbn [WebServer.exec].
  unfold WebServer.emit_error, bind, get.
  destruct (web_error_frame e (WebServer.on_error (WebServer.server_ s1)) s1)
    as [H2 _].
  cbv zeta in H2. rewrite web_error_state, web_error_running, H2, H1, Hp. cbn.
  rewrite existsb_app. cbn. rewrite Bool.orb_true_r. repeat split.
Qed.

Lemma web_failed_starts (port : nat) (handler : WebServer.UserHandler)
      (e : Error) (n : nat) :
  WebServer.valid_port port = true ->
  forall s : WebServer.t,
    WebServer.state_ s = NONE ->
    WebServer.listening (WebServer.server_ s) = false ->
    let s' := web_run (failed_starts port handler e n) s in
    WebServer.state_ s' = NONE
    /\ WebServer.listening (WebServer.server_ s') = false
    /\ WebServer.on_upgrade (WebServer.server_ s')
       = (WebServer.on_upgrade (WebServer.server_ s) ++ repeat handler n)%list
    /\ WebServer.sid (WebServer.server_ s') = WebServer.sid (WebServer.server_ s)
    /\ WebServer.protocol_running s' = WebServer.protocol_running s.
Proof.
  intro Hv. induction n as [|n IH]; intros s Hs Hl.
  - cbn. rewrite app_nil_r. repeat split; assumption.
  - cbv zeta.
    change (failed_starts port handler e (S n))
      with ([WebServer.Open port handler; WebServer.ErrorEvent e]
              ++ failed_starts port handler e n)%list.
    rewrite web_run_app.
    destruct (web_failed_start port handler e s Hv Hs Hl)
      as [H1 [H2 [H3 [H4 H5]]]].
    cbv zeta in H1, H2, H3, H4, H5.
    destruct (IH _ H1 H2) as [H6 [H7 [H8 [H9 H10]]]].
    cbv zeta in H6, H7, H8, H9, H10.
    rewrite H6, H7, H8, H9, H10, H3, H4, H5. repeat split.
    rewrite <- app_assoc. reflexivity.
Qed.

(** X4.  [open()] after a failed start keeps the server object and puts
    its listeners on it once more.  After [n + 1] failed starts with
    [handler], on a port in 0..65535, an [open()] with [handler'] leaves
    the server OPENING and "listening" makes it OPEN, on the first server
    object, which then carries [n + 2] "upgrade" listeners, the one of
    [handler'] last.  An upgrade makes one web socket, and the listener
    that gets it is the first: the one of the first failed [open()], with
    [handler], not the one of the [open()] that was accepted.  The second
    listener then asks [protocol_] for the same net socket and the emit
    ends in that throw. *)
Theorem web_retry_adds_listeners :
  forall (key cert : option string) (port : nat)
         (handler handler' : WebServer.UserHandler) (error : Error) (n : nat)
         (request id : nat),
    WebServer.valid_port port = true ->
    let s1 := web_run (failed_starts port handler error (S n)
                         ++ [WebServer.Open port handler'])
                      (WebServer.init key cert) in
    let s := WebServer.step s1 WebServer.Listening in
    WebServer.state_ s1 = OPENING
    /\ WebServer.state_ s = OPEN
    /\ WebServer.sid (WebServer.server_ s) = 0
    /\ WebServer.on_upgrade (WebServer.server_ s)
       = (repeat handler (S n) ++ [handler'])%list
    /\ WebServer.emit_upgrade s request id
       = [WebServer.handle_upgrade handler request id]
    /\ WebServer.emit_upgrade_throws s = true.
Proof.
  intros key cert port handler handler' error n request id Hv. cbv zeta.
  rewrite web_run_app.
  assert (H0 : WebServer.state_ (WebServer.init key cert) = NONE
               /\ WebServer.listening
                    (WebServer.server_ (WebServer.init key cert)) = false
               /\ WebServer.on_upgrade
                    (WebServer.server_ (WebServer.init key cert)) = []
               /\ WebServer.sid (WebServer.server_ (WebServer.init key cert))
                  = 0
               /\ WebServer.protocol_running (WebServer.init key cert)
                  = true).
  { unfold WebServer.init.
    destruct key as [k|]; [destruct (WebServer.truthy _)|]; repeat split. }
  destruct H0 as [Hs [Hl [Hu [Hi Hp]]]].
  destruct (web_failed_starts port handler error (S n) Hv _ Hs Hl)
    as [H1 [H2 [H3 [H4 H5]]]].
  cbv zeta in H1, H2, H3, H4, H5.
  rewrite Hu in H3. rewrite Hi in H4. rewrite Hp in H5.
  cbn [app] in H3.
  set (s' := web_run (failed_starts port handler error (S n))
                     (WebServer.init key cert)) in *.
  unfold web_run at 1 2 3 4 5 6. cbn [fold_left].
  destruct s' as [st o [i sec li ou ol oe] run ns np cp cs lg].
  cbn in H1, H2, H3, H4, H5. subst st li ou i run.
  assert (E : WebServer.step
                (WebServer.mk NONE o
                   (WebServer.mkServer 0 sec false (repeat handler (S n))
                      ol oe)
                   true ns np cp cs lg)
                (WebServer.Open port handler')
              = WebServer.mk OPENING o
                  (WebServer.mkServer 0 sec false
                     (repeat handler (S n) ++ [handler'])
                     (ol ++ [np]) (oe ++ [WebServer.RejectOpen np]))
                  true ns (S np) cp cs (lg ++ [Listen 0 port])).
  { unfold WebServer.step, WebServer.exec, WebServer.open, WebServer._Open,
      WebServer.server_listen, try_catch, bind, get.
    cbn. rewrite Hv. reflexivity. }
  change (handler :: repeat handler n) with (repeat handler (S n)).
  rewrite E. clear E.
  unfold WebServer.emit_upgrade, WebServer.emit_upgrade_throws,
    WebServer.step.
  cbn [WebServer.exec]. rewrite web_emit_listening.
  match goal with
  | |- context [WebServer.for_each _ ?l ?x] =>
      destruct (web_listening_frame l x) as [_ [_ [F3 [_ [F5 _]]]]];
      cbv zeta in F3, F5;
      rewrite F3, F5, (web_listening_running l x), (web_listening_state l x)
  end.
  cbn.
  rewrite length_app, repeat_length. cbn.
  replace (n + 1) with (S n) by lia.
  destruct ol; repeat split.
Qed.

Lemma web_retry_adds_listeners_witness :
  let s1 := web_run (failed_starts 80 example_handler listen_failed 1
                       ++ [WebServer.Open 80 (fun _ => Throw listen_failed)])
                    (WebServer.init None None) in
  let s := WebServer.step s1 WebServer.Listening in
  WebServer.state_ s1 = OPENING
  /\ WebServer.state_ s = OPEN
  /\ WebServer.sid (WebServer.server_ s) = 0
  /\ WebServer.on_upgrade (WebServer.server_ s)
     = [example_handler; fun _ => Throw listen_failed]
  /\ WebServer.emit_upgrade s 5 6
     = [WebServer.handle_upgrade example_handler 5 6]
  /\ WebServer.emit_upgrade_throws s = true.
Proof.
  exact (web_retry_adds_listeners None None 80 example_handler
           (fun _ => Throw listen_failed) listen_failed 0 5 6 eq_refl).
Defined.

Lemma web_step_kind (s : WebServer.t) (op : WebServer.Op) :
  WebServer.secure (WebServer.server_ (WebServer.step s op))
  = WebServer.secure (WebServer.server_ s)
  /\ WebServer.options_ (WebServer.step s op) = WebServer.options_ s.
Proof.
  unfold WebServer.step.
  destruct op as [port handler| | |e| |]; cbn [WebServer.exec].
  - destruct s as [st o [i sec li ou ol oe] run ns np cp cs lg].
    destruct st, li; web_open_cases; split; reflexivity.
  - destruct s as [st o sv run ns np cp cs lg]. destruct st; split; reflexivity.
  - rewrite web_emit_listening.
    destruct (web_listening_frame
                (WebServer.on_listening (WebServer.server_ s))
                (snd (WebServer.set_listening true s)))
      as [_ [_ [_ [H4 [_ [H6 _]]]]]].
    split; assumption.
  - unfold WebServer.emit_error, bind, get.
    destruct (web_error_frame e (WebServer.on_error (WebServer.server_ s)) s)
      as [H1 [H2 _]].
    cbv zeta in *. rewrite H1. split; [reflexivity | exact H2].
  - destruct s as [st o sv run ns np [|cp] cs lg]; split; reflexivity.
  - destruct s as [st o sv run ns np cp [|cs] lg]; split; reflexivity.
Qed.

(** X5.  What the constructor decided stays: a web server made with a
    non-empty key listens on https server objects, with the key and the
    certificate it was given, through every [open()] again; one made
    without a key, or with an empty one, stays on http. *)
Theorem web_server_kind_kept :
  forall (key cert : option string) (ops : list WebServer.Op),
    let s := web_run ops (WebServer.init key cert) in
    WebServer.secure (WebServer.server_ s) = WebServer.truthy key
    /\ WebServer.options_ s
       = (if WebServer.truthy key
          then match key with Some k => Some (k, cert) | None => None end
          else None).
Proof.
  intros key cert ops. cbv zeta.
  assert (H : forall s, WebServer.secure (WebServer.server_ (web_run ops s))
                        = WebServer.secure (WebServer.server_ s)
                        /\ WebServer.options_ (web_run ops s)
                           = WebServer.options_ s).
  { induction ops as [|op ops IH]; intro s; [split; reflexivity|].
    cbn [web_run fold_left]. fold (web_run ops (WebServer.step s op)).
    destruct (IH (WebServer.step s op)) as [H1 H2].
    destruct (web_step_kind s op) as [H3 H4].
    rewrite H1, H2, H3, H4. split; reflexivity. }
  destruct (H (WebServer.init key cert)) as [H1 H2]. rewrite H1, H2.
  unfold WebServer.init.
  destruct key as [k|]; [destruct (WebServer.truthy (Some k)) eqn:E|];
    cbn; try rewrite E; split; reflexivity.
Qed.

(** ** WorkerConnector *)

(** Once a worker was made, the [resolve] of a [_Connect] is kept. *)
Lemma conn_step_links (h : Host) (s : WorkerConnector.t)
      (op : WorkerConnector.Op) :
  (is_some (WorkerConnector.worker_ s) = true ->
   is_some (WorkerConnector.connector_ s) = true) ->
  is_some (WorkerConnector.worker_ (WorkerConnector.step h s op)) = true ->
  is_some (WorkerConnector.connector_ (WorkerConnector.step h s op)) = true.
Proof.
  unfold WorkerConnector.step.
  destruct s as [st w c cm j hc cg np lg];
    cbn [WorkerConnector.worker_ WorkerConnector.connector_].
  intro Hl.
  destruct op as [ex| |cp ex| |d| |l]; cbn [WorkerConnector.exec].
  - destruct w, st, ex; cbn; intro H; try reflexivity;
      try (apply Hl; exact H); discriminate H.
  - destruct w, st; cbn; intro H; try (apply Hl; exact H); discriminate H.
  - destruct w, cg, cp, ex; cbn; intro H; try reflexivity;
      try (apply Hl; exact H); discriminate H.
  - destruct w, st; cbn; intro H; try (apply Hl; exact H); discriminate H.
  - destruct w; [|cbn; intro H; discriminate H].
    destruct d as [x| | |]; [destruct x| | |]; destruct c; cbn; conn_cases;
      intro H; try reflexivity; apply Hl; reflexivity.
  - destruct hc; cbn; intro H; apply Hl; exact H.
  - destruct w, st; cbn; conn_cases; intro H;
      try (apply Hl; exact H); discriminate H.
Qed.

Lemma conn_run_sound (h : Host) (ops : list WorkerConnector.Op) :
  forall s : WorkerConnector.t,
    conn_wf s ->
    (is_some (WorkerConnector.worker_ s) = true ->
     is_some (WorkerConnector.connector_ s) = true) ->
    conn_wf (connector_run h ops s)
    /\ (is_some (WorkerConnector.worker_ (connector_run h ops s)) = true ->
        is_some (WorkerConnector.connector_ (connector_run h ops s)) = true).
Proof.
  induction ops as [|op ops IH]; intros s Hw Hl; [split; assumption|].
  cbn [connector_run fold_left].
  apply (IH (WorkerConnector.step h s op)).
  - apply conn_step_wf, Hw.
  - apply conn_step_links, Hl.
Qed.

Lemma conn_init_sound :
  conn_wf WorkerConnector.init
  /\ (is_some (WorkerConnector.worker_ WorkerConnector.init) = true ->
      is_some (WorkerConnector.connector_ WorkerConnector.init) = true).
Proof.
  split; [intros _; split; reflexivity | intro H; discriminate H].
Qed.

(** X6.  The assertions [this.worker_!] and [this.connector_!] never meet
    [undefined]: whatever was done with a connector, handling an OPEN frame
    does not throw, and in OPEN neither [close()] nor [sendData] throws;
    [close()] posts CLOSING and leaves the connector CLOSING.  There is no
    test of the state before an OPEN frame is obeyed: a connector that has
    a worker is OPEN after it, whatever it was before. *)
Theorem connector_assertions_hold :
  forall (h : Host) (ops : list WorkerConnector.Op),
    let s := connector_run h ops WorkerConnector.init in
    let r := WorkerConnector.deliver h (Sentinel OPEN) s in
    fst r = Ok tt
    /\ (is_some (WorkerConnector.worker_ s) = true ->
        WorkerConnector.state_ (snd r) = OPEN)
    /\ (WorkerConnector.state_ s = OPEN ->
        fst (WorkerConnector.close s) = Ok tt
        /\ WorkerConnector.state_ (snd (WorkerConnector.close s)) = CLOSING
        /\ WorkerConnector.log (snd (WorkerConnector.close s))
           = (WorkerConnector.log s ++ [PostMessage (Sentinel CLOSING)])%list)
    /\ (WorkerConnector.state_ s = OPEN ->
        forall u, WorkerConnector.sendData u s
                  = (Ok tt, snd (WorkerConnector.emit [SendData u] s))).
Proof.
  intros h ops. cbv zeta.
  destruct conn_init_sound as [Hw0 Hl0].
  destruct (conn_run_sound h ops _ Hw0 Hl0) as [Hw Hl].
  destruct (connector_run h ops WorkerConnector.init)
    as [st w c cm j hc cg np lg].
  unfold conn_wf in Hw. cbn in Hw, Hl.
  split; [|split; [|split]].
  - destruct w as [w|]; [|reflexivity].
    destruct c as [c|]; [reflexivity|].
    specialize (Hl eq_refl). discriminate Hl.
  - intro H. destruct w as [w|]; [|discriminate H].
    destruct c as [c|]; [reflexivity|].
    specialize (Hl eq_refl). discriminate Hl.
  - intro Hs. cbn in Hs. subst st.
    destruct w as [w|]; [repeat split|].
    destruct (Hw eq_refl) as [H _]. discriminate H.
  - intros Hs u. cbn in Hs. subst st.
    destruct w as [w|]; [reflexivity|].
    destruct (Hw eq_refl) as [H _]. discriminate H.
Qed.

Lemma connector_assertions_hold_witness :
  WorkerConnector.state_ connector_open = OPEN
  /\ fst (WorkerConnector.close connector_open) = Ok tt
  /\ WorkerConnector.state_ (snd (WorkerConnector.close connector_open))
     = CLOSING
  /\ WorkerConnector.log (snd (WorkerConnector.close connector_open))
     = [PromiseResolved 0; PostMessage (Sentinel CLOSING)].
Proof.
  split; [reflexivity|].
  destruct (connector_assertions_hold node_host
              [WorkerConnector.Connect (Ok 1);
               WorkerConnector.Frame (Sentinel OPEN)]) as [_ [_ [H _]]].
  exact (H eq_refl).
Defined.

(** X7.  While a connector that has a worker is CONNECTING, OPEN or
    CLOSING, [connect()] and [compile()] throw a DomainError naming the
    method and the reason, and nothing is touched: no worker is made,
    whatever [Compiler.execute] would have done. *)
Theorem connector_busy_rejects :
  forall (s : WorkerConnector.t) (execute : Res nat),
    is_some (WorkerConnector.worker_ s) = true ->
    (WorkerConnector.state_ s = CONNECTING ->
     WorkerConnector.connect execute s
     = (Throw (mkError DomainError
                 "Error on WorkerConnector.connect(): on connecting."), s)
     /\ WorkerConnector.compile s
        = (Throw (mkError DomainError
                    "Error on WorkerConnector.compile(): on connecting."), s))
    /\ (WorkerConnector.state_ s = OPEN ->
        WorkerConnector.connect execute s
        = (Throw (mkError DomainError
                    "Error on WorkerConnector.connect(): already connected."), s)
        /\ WorkerConnector.compile s
           = (Throw (mkError DomainError
                       "Error on WorkerConnector.compile(): already connected."),
              s))
    /\ (WorkerConnector.state_ s = CLOSING ->
        WorkerConnector.connect execute s
        = (Throw (mkError DomainError
                    "Error on WorkerConnector.connect(): closing."), s)
        /\ WorkerConnector.compile s
           = (Throw (mkError DomainError
                       "Error on WorkerConnector.compile(): closing."), s)).
Proof.
  intros [st w c cm j hc cg np lg] execute Hw.
  destruct w as [w|]; [clear Hw | discriminate Hw].
  repeat split; cbn in H; subst st; reflexivity.
Qed.

Lemma connector_busy_rejects_witness :
  WorkerConnector.connect (Ok 2) connector_open
  = (Throw (mkError DomainError
              "Error on WorkerConnector.connect(): already connected."),
     connector_open).
Proof.
  destruct (connector_busy_rejects connector_open (Ok 2) eq_refl)
    as [_ [H _]].
  exact (proj1 (H eq_refl)).
Defined.

(** X8.  A start that fails can be tried again on a new connector, but not
    on one that was connected before: after a failed [connect()] from
    CLOSED the connector is in NONE with its old worker, and from then on
    [connect()] and [compile()] throw "closing." and change nothing. *)
Theorem connector_failed_reconnect_blocks :
  forall (h : Host) (ops : list WorkerConnector.Op) (e : Error)
         (execute : Res nat) (w : nat),
    let s := connector_run h ops WorkerConnector.init in
    let s1 := snd (WorkerConnector.connect (Throw e) s) in
    let s0 := snd (WorkerConnector.connect (Throw e) WorkerConnector.init) in
    (WorkerConnector.state_ s = CLOSED ->
     WorkerConnector.state_ s1 = NONE
     /\ WorkerConnector.connect execute s1
        = (Throw (mkError DomainError
                    "Error on WorkerConnector.connect(): closing."), s1)
     /\ WorkerConnector.compile s1
        = (Throw (mkError DomainError
                    "Error on WorkerConnector.compile(): closing."), s1))
    /\ fst (WorkerConnector.connect (Ok w) s0) = Ok None
    /\ WorkerConnector.state_ (snd (WorkerConnector.connect (Ok w) s0))
       = CONNECTING.
Proof.
  intros h ops e execute w. cbv zeta.
  split; [|split; reflexivity].
  destruct conn_init_sound as [Hw0 Hl0].
  destruct (conn_run_sound h ops _ Hw0 Hl0) as [Hw _].
  destruct (connector_run h ops WorkerConnector.init)
    as [st wk c cm j hc cg np lg].
  unfold conn_wf in Hw. cbn in Hw.
  intro Hs. cbn in Hs. subst st.
  destruct wk as [wk|]; [repeat split|].
  destruct (Hw eq_refl) as [H _]. discriminate H.
Qed.

Lemma connector_failed_reconnect_blocks_witness :
  let s := connector_run node_host
             [WorkerConnector.Connect (Ok 1);
              WorkerConnector.Frame (Sentinel OPEN); WorkerConnector.Close;
              WorkerConnector.Frame (Sentinel CLOSING);
              WorkerConnector.HandleCloseResume] WorkerConnector.init in
  let s1 := snd (WorkerConnector.connect (Throw spawn_failed) s) in
  WorkerConnector.state_ s = CLOSED
  /\ WorkerConnector.state_ s1 = NONE
  /\ WorkerConnector.connect (Ok 2) s1
     = (Throw (mkError DomainError
                 "Error on WorkerConnector.connect(): closing."), s1).
Proof.
  cbv zeta. split; [reflexivity|].
  destruct (connector_failed_reconnect_blocks node_host
              [WorkerConnector.Connect (Ok 1);
               WorkerConnector.Frame (Sentinel OPEN); WorkerConnector.Close;
               WorkerConnector.Frame (Sentinel CLOSING);
               WorkerConnector.HandleCloseResume]
              spawn_failed (Ok 2) 2) as [H _].
  destruct (H eq_refl) as [H1 [H2 _]].
  split; assumption.
Defined.

(** ** The worker servers *)

Lemma replyData_quiet (p : Action -> bool) (j : Json) (c : Communicator.t) :
  (forall x, p (ReplyData x) = false) ->
  (forall u v, p (CallResolved u v) = false) ->
  (forall u v, p (CallRejected u v) = false) ->
  length (filter p (fst (Communicator.replyData j c))) = 0.
Proof.
  intros H1 H2 H3. unfold Communicator.replyData, Communicator.complete.
  destruct (Communicator.decode j) as [[u l|u b v]|]; cbn;
    try (rewrite H1; reflexivity).
  destruct (existsb _ _); cbn; rewrite H1; [|reflexivity].
  destruct b; cbn; [rewrite H2 | rewrite H3]; reflexivity.
Qed.

(** Splits the cases of a step and leaves arithmetic over the counts. *)
Ltac tidy_cases :=
  unfold bind, parse, WorkerServer.communicator, WorkerServerOld.communicator,
    try_catch, modify;
  cbn;
  repeat (match goal with
          | |- context [JSON_parse ?h ?d] => destruct (JSON_parse h d)
          | |- context [Communicator.replyData ?j ?c] =>
              let H1 := fresh "Hq" in
              let H2 := fresh "Hq" in
              let H3 := fresh "Hq" in
              let H4 := fresh "Hq" in
              pose proof (replyData_quiet is_teardown j c
                            (fun _ => eq_refl) (fun _ _ => eq_refl)
                            (fun _ _ => eq_refl)) as H1;
              pose proof (replyData_quiet (is_post CLOSING) j c
                            (fun _ => eq_refl) (fun _ _ => eq_refl)
                            (fun _ _ => eq_refl)) as H2;
              pose proof (replyData_quiet (is_post OPEN) j c
                            (fun _ => eq_refl) (fun _ _ => eq_refl)
                            (fun _ _ => eq_refl)) as H3;
              pose proof (replyData_quiet (is_post OPENING) j c
                            (fun _ => eq_refl) (fun _ _ => eq_refl)
                            (fun _ _ => eq_refl)) as H4;
              destruct (Communicator.replyData j c)
          end; cbn in *).

Ltac count_arith :=
  unfold count, flag in *; cbn in *;
  rewrite ?filter_app, ?length_app in *; cbn in *;
  try lia.

Lemma server_step_tidy (h : Host) (s : WorkerServer.t) (op : WorkerServer.Op) :
  is_node h = true ->
  server_tidy s -> server_tidy (WorkerServer.step h s op).
Proof.
  intros Hn. unfold server_tidy, WorkerServer.step.
  destruct s as [st p hd om cm o cl tm lg].
  cbn [WorkerServer.state_ WorkerServer.opening WorkerServer.closing
       WorkerServer.timers WorkerServer.log].
  intros [H1 [H2 [H3 [H4 H5]]]].
  destruct op as [pr| | | | | |d]; cbn [WorkerServer.exec].
  - unfold WorkerServer.open, bind, get. rewrite Hn. cbn.
    destruct (is_worker_server h); cbn; [|repeat split; assumption].
    destruct st; cbn; try (repeat split; assumption).
    destruct hd; count_arith.
  - destruct o as [|o]; [cbn; repeat split; assumption|].
    destruct st; try (cbn in H1; lia).
    destruct hd as [[| |]|]; count_arith.
  - destruct hd; count_arith.
  - destruct st; count_arith.
  - destruct cl as [|cl]; [cbn; repeat split; assumption|].
    destruct st; try (cbn in H2; discriminate H2). count_arith.
  - destruct tm as [|tm]; [cbn; repeat split; assumption|].
    destruct st; count_arith.
  - destruct om as [|[|]|]; cbn; try (repeat split; assumption).
    destruct d as [x| | |]; [destruct x| | |]; cbn; tidy_cases;
      try (repeat split; assumption);
      destruct st; count_arith.
Qed.

Lemma old_server_step_tidy (h : Host) (s : WorkerServerOld.t)
      (op : WorkerServerOld.Op) :
  is_node h = true ->
  old_server_tidy s -> old_server_tidy (WorkerServerOld.step h s op).
Proof.
  intros Hn. unfold old_server_tidy, WorkerServerOld.step.
  destruct s as [st p hd om cm cl tm lg].
  cbn [WorkerServerOld.state_ WorkerServerOld.closing WorkerServerOld.timers
       WorkerServerOld.log].
  intros [H2 [H3 [H4 H5]]].
  destruct op as [pr| | | | |d]; cbn [WorkerServerOld.exec].
  - unfold WorkerServerOld.open, bind, get. rewrite Hn. cbn.
    destruct (process_send_defined h); cbn; [|repeat split; assumption].
    destruct st; count_arith.
  - destruct st; count_arith.
  - destruct cl as [|cl]; [cbn; repeat split; assumption|].
    destruct st; try (cbn in H2; discriminate H2). count_arith.
  - destruct tm as [|tm]; [cbn; repeat split; assumption|].
    destruct st; count_arith.
  - unfold WorkerServerOld.headers. destruct hd; cbn;
      [repeat split; assumption|].
    tidy_cases; repeat split; assumption.
  - destruct om; cbn; [|repeat split; assumption].
    destruct d as [x| | |]; [destruct x| | |]; cbn; tidy_cases;
      try (repeat split; assumption);
      destruct st; count_arith.
Qed.

Lemma server_run_tidy (h : Host) (ops : list WorkerServer.Op) :
  is_node h = true ->
  forall s, server_tidy s -> server_tidy (server_run h ops s).
Proof.
  intro Hn. induction ops as [|op ops IH]; intros s H; [exact H|].
  apply IH, server_step_tidy; assumption.
Qed.

Lemma old_server_run_tidy (h : Host) (ops : list WorkerServerOld.Op) :
  is_node h = true ->
  forall s, old_server_tidy s -> old_server_tidy (old_server_run h ops s).
Proof.
  intro Hn. induction ops as [|op ops IH]; intros s H; [exact H|].
  apply IH, old_server_step_tidy; assumption.
Qed.

(** X9.  Under node, whatever is done with a worker server of
    WorkerServer.ts: OPEN is posted exactly once, when the server becomes
    OPEN; CLOSING is posted and the channel closed at most once, together,
    and only when the server is CLOSED. *)
Theorem worker_server_posts_once :
  forall (h : Host) (ops : list WorkerServer.Op),
    is_node h = true ->
    let s := server_run h ops WorkerServer.init in
    count (is_post OPEN) (WorkerServer.log s)
    = flag (Nat.leb (rank OPEN) (rank (WorkerServer.state_ s)))
    /\ count is_teardown (WorkerServer.log s) <= 1
    /\ count (is_post CLOSING) (WorkerServer.log s)
       = count is_teardown (WorkerServer.log s)
    /\ (count is_teardown (WorkerServer.log s) = 1 ->
        WorkerServer.state_ s = CLOSED).
Proof.
  intros h ops Hn s.
  assert (H0 : server_tidy WorkerServer.init) by (repeat split; apply le_n).
  pose proof (server_run_tidy h ops Hn _ H0) as [H1 [H2 [H3 [H4 H5]]]].
  fold s in H1, H2, H3, H4, H5.
  split; [exact H5|]. split; [|split; [exact H4|]].
  - unfold flag in H3. destruct (State_eqb _ CLOSED); lia.
  - intro Hc. apply State_eqb_eq.
    unfold flag in H3. destruct (State_eqb _ CLOSED); [reflexivity | lia].
Qed.

Lemma worker_server_posts_once_witness :
  let s := server_run node_host
             [WorkerServer.Open (Some 1); WorkerServer.Frame (Text envelope7);
              WorkerServer.OpenResume; WorkerServer.Close;
              WorkerServer.CloseResume; WorkerServer.TimerFires]
             WorkerServer.init in
  count (is_post OPEN) (WorkerServer.log s)
  = flag (Nat.leb (rank OPEN) (rank (WorkerServer.state_ s)))
  /\ count is_teardown (WorkerServer.log s) <= 1
  /\ count (is_post CLOSING) (WorkerServer.log s)
     = count is_teardown (WorkerServer.log s)
  /\ (count is_teardown (WorkerServer.log s) = 1 ->
      WorkerServer.state_ s = CLOSED).
Proof.
  exact (worker_server_posts_once node_host
           [WorkerServer.Open (Some 1); WorkerServer.Frame (Text envelope7);
            WorkerServer.OpenResume; WorkerServer.Close;
            WorkerServer.CloseResume; WorkerServer.TimerFires] eq_refl).
Defined.

(** X10.  The same for the earlier class under node: OPEN is posted
    exactly once, by the [open()] that was accepted; CLOSING is posted and
    the channel closed at most once, together, and only when the server is
    CLOSED. *)
Theorem old_worker_server_posts_once :
  forall (h : Host) (ops : list WorkerServerOld.Op),
    is_node h = true ->
    let s := old_server_run h ops WorkerServerOld.init in
    count (is_post OPEN) (WorkerServerOld.log s)
    = flag (Nat.leb (rank OPEN) (rank (WorkerServerOld.state_ s)))
    /\ count is_teardown (WorkerServerOld.log s) <= 1
    /\ count (is_post CLOSING) (WorkerServerOld.log s)
       = count is_teardown (WorkerServerOld.log s)
    /\ (count is_teardown (WorkerServerOld.log s) = 1 ->
        WorkerServerOld.state_ s = CLOSED).
Proof.
  intros h ops Hn s.
  assert (H0 : old_server_tidy WorkerServerOld.init) by (repeat split).
  pose proof (old_server_run_tidy h ops Hn _ H0) as [H2 [H3 [H4 H5]]].
  fold s in H2, H3, H4, H5.
  split; [exact H5|]. split; [|split; [exact H4|]].
  - unfold flag in H3. destruct (State_eqb _ CLOSED); lia.
  - intro Hc. apply State_eqb_eq.
    unfold flag in H3. destruct (State_eqb _ CLOSED); [reflexivity | lia].
Qed.

Lemma old_worker_server_posts_once_witness :
  let s := old_server_run node_host
             [WorkerServerOld.Open (Some 1); WorkerServerOld.Close;
              WorkerServerOld.CloseResume; WorkerServerOld.TimerFires]
             WorkerServerOld.init in
  count (is_post OPEN) (WorkerServerOld.log s)
  = flag (Nat.leb (rank OPEN) (rank (WorkerServerOld.state_ s)))
  /\ count is_teardown (WorkerServerOld.log s) <= 1
  /\ count (is_post CLOSING) (WorkerServerOld.log s)
     = count is_teardown (WorkerServerOld.log s)
  /\ (count is_teardown (WorkerServerOld.log s) = 1 ->
      WorkerServerOld.state_ s = CLOSED).
Proof.
  exact (old_worker_server_posts_once node_host
           [WorkerServerOld.Open (Some 1); WorkerServerOld.Close;
            WorkerServerOld.CloseResume; WorkerServerOld.TimerFires] eq_refl).
Defined.

Lemma server_step_handshake (h : Host) (s : WorkerServer.t)
      (op : WorkerServer.Op) :
  server_handshaken s -> server_handshaken (WorkerServer.step h s op).
Proof.
  unfold server_handshaken, WorkerServer.step.
  destruct s as [st p hd om cm o cl tm lg].
  cbn [WorkerServer.header_ WorkerServer.log WorkerServer.onmessage].
  intros [H Hm].
  destruct op as [pr| | | | | |d]; cbn [WorkerServer.exec].
  - unfold WorkerServer.open, bind, get.
    destruct (is_node h), (document_defined h), (is_worker_server h), st, hd;
      cbn; split; try assumption; try (intros _; reflexivity); count_arith.
  - destruct o as [|o]; [cbn; split; assumption|].
    destruct hd as [[| |]|]; cbn; split; try assumption;
      try (intros _; reflexivity); count_arith.
  - destruct hd; cbn; split; try assumption; try (intros _; reflexivity);
      count_arith.
  - destruct st; cbn; split; try assumption; count_arith.
  - destruct cl as [|cl]; cbn; split; try assumption; count_arith.
  - destruct tm as [|tm]; cbn; split; try assumption; count_arith.
  - destruct om as [|[|]|]; cbn; try (split; assumption).
    + split; [|intros _; reflexivity].
      assert (Hh : is_some hd = true) by (apply Hm; discriminate).
      rewrite Hh in H. exact H.
    + destruct d as [x| | |]; [destruct x| | |]; cbn; tidy_cases;
        try (split; assumption); destruct st; cbn; split; try assumption;
        count_arith.
Qed.

(** X11.  On any host and whatever is done with a worker server of
    WorkerServer.ts, in whatever order [getHeader()] and [open()] are
    called: the OPENING sentinel that starts the handshake is posted at
    most once, and it has been posted exactly when the header has been
    asked for. *)
Theorem worker_server_handshake_once :
  forall (h : Host) (ops : list WorkerServer.Op),
    let s := server_run h ops WorkerServer.init in
    count (is_post OPENING) (WorkerServer.log s)
    = flag (is_some (WorkerServer.header_ s)).
Proof.
  intros h ops. cbv zeta.
  assert (H : forall s, server_handshaken s ->
                        server_handshaken (server_run h ops s)).
  { induction ops as [|op ops IH]; intros s Hs; [exact Hs|].
    apply IH, server_step_handshake, Hs. }
  apply H. split; [reflexivity | intro E; exfalso; apply E; reflexivity].
Qed.

(** X12.  Under node, a worker server whose handshake frame does not
    decode, or decodes to null, is lost: [open()] is rejected with the
    error of the header, the state stays OPENING, and from then on every
    operation (another [open()], [close()], [getHeader()], any frame)
    leaves the server exactly as it is. *)
Theorem worker_server_dead_after_bad_handshake :
  forall (h : Host) (d : Data) (e : Error) (provider : option nat),
    is_node h = true ->
    is_worker_server h = true ->
    WorkerServer.header_of_frame h d = Rejected e ->
    let r := WorkerServer.open_resume
               (server_run h [WorkerServer.Open provider; WorkerServer.Frame d]
                           WorkerServer.init) in
    fst r = Throw e
    /\ WorkerServer.state_ (snd r) = OPENING
    /\ (forall op, WorkerServer.step h (snd r) op = snd r).
Proof.
  intros h d e provider Hn Hw He. cbv zeta.
  assert (E : server_run h [WorkerServer.Open provider; WorkerServer.Frame d]
                         WorkerServer.init
              = WorkerServer.mk OPENING (Some provider) (Some (Rejected e))
                  (WorkerServer.HandshakeOnce true) Communicator.init 1 0 0
                  [PostMessage (Sentinel OPENING)]).
  { unfold server_run. cbn [fold_left].
    unfold WorkerServer.step at 2. cbn [WorkerServer.exec].
    unfold WorkerServer.open, bind, get. rewrite Hn, Hw. cbn.
    unfold WorkerServer.step. cbn. rewrite He. reflexivity. }
  rewrite E. cbn. repeat split.
  intro op. unfold WorkerServer.step.
  destruct op as [pr| | | | | |d']; cbn [WorkerServer.exec]; try reflexivity.
  unfold WorkerServer.open, bind, get. rewrite Hn, Hw. reflexivity.
Qed.

Lemma worker_server_dead_after_bad_handshake_witness :
  let r := WorkerServer.open_resume
             (server_run node_host
                [WorkerServer.Open (Some 1); WorkerServer.Frame (Text "null")]
                WorkerServer.init) in
  fst r = Throw (mkError TypeError "wrapper.header")
  /\ WorkerServer.state_ (snd r) = OPENING
  /\ (forall op, WorkerServer.step node_host (snd r) op = snd r).
Proof.
  exact (worker_server_dead_after_bad_handshake node_host (Text "null")
           (mkError TypeError "wrapper.header") (Some 1)
           eq_refl eq_refl eq_refl).
Defined.

(** X13.  In a browser worker (no [self.document]) the test of the state
    in [open()] is never reached: [open()] is accepted in every state.  The
    earlier class posts OPEN again and is OPEN with the new provider;
    WorkerServer.ts goes to OPENING with the new provider and waits for the
    header once more. *)
Theorem worker_server_browser_open_unguarded :
  forall (h : Host) (provider : option nat),
    is_node h = false ->
    document_defined h = false ->
    (forall s : WorkerServerOld.t,
        let r := WorkerServerOld.open h provider s in
        fst r = Ok tt
        /\ WorkerServerOld.state_ (snd r) = OPEN
        /\ WorkerServerOld.provider_ (snd r) = Some provider
        /\ WorkerServerOld.log (snd r)
           = (WorkerServerOld.log s ++ [PostMessage (Sentinel OPEN)])%list)
    /\ (forall s : WorkerServer.t,
           let r := WorkerServer.open h provider s in
           fst r = Ok tt
           /\ WorkerServer.state_ (snd r) = OPENING
           /\ WorkerServer.provider_ (snd r) = Some provider
           /\ WorkerServer.opening (snd r) = S (WorkerServer.opening s)).
Proof.
  intros h provider Hn Hd. split.
  - intros [st p hd om cm cl tm lg]. cbv zeta.
    unfold WorkerServerOld.open, bind, get. rewrite Hn, Hd. cbn.
    repeat split.
  - intros [st p hd om cm o cl tm lg]. cbv zeta.
    unfold WorkerServer.open, bind, get. rewrite Hn, Hd. cbn.
    destruct hd; cbn; repeat split.
Qed.

Lemma worker_server_browser_open_unguarded_witness :
  let s := old_server_run browser_host
             [WorkerServerOld.Open (Some 1); WorkerServerOld.Close;
              WorkerServerOld.CloseResume] WorkerServerOld.init in
  let r := WorkerServerOld.open browser_host (Some 2) s in
  fst r = Ok tt
  /\ WorkerServerOld.state_ (snd r) = OPEN
  /\ WorkerServerOld.provider_ (snd r) = Some (Some 2)
  /\ WorkerServerOld.log (snd r)
     = (WorkerServerOld.log s ++ [PostMessage (Sentinel OPEN)])%list.
Proof.
  exact (proj1 (worker_server_browser_open_unguarded browser_host (Some 2)
                  eq_refl eq_refl)
               (old_server_run browser_host
                  [WorkerServerOld.Open (Some 1); WorkerServerOld.Close;
                   WorkerServerOld.CloseResume] WorkerServerOld.init)).
Defined.

(** ** Frames *)

(** X14.  A frame that [JSON.parse] refuses makes [_Handle_message] throw
    before [replyData] is reached, in the two worker servers and in the
    connector: nothing is closed and nothing is changed. *)
Theorem malformed_frame_changes_nothing :
  forall (h : Host) (d : Data),
    JSON_parse h d = None ->
    is_sentinel CLOSING d = false ->
    (forall s : WorkerServer.t,
        is_throw (fst (WorkerServer._Handle_message h d s)) = true
        /\ snd (WorkerServer._Handle_message h d s) = s)
    /\ (forall s : WorkerServerOld.t,
           is_throw (fst (WorkerServerOld._Handle_message h d s)) = true
           /\ snd (WorkerServerOld._Handle_message h d s) = s)
    /\ (is_sentinel OPEN d = false ->
        forall s : WorkerConnector.t,
          is_throw (fst (WorkerConnector._Handle_message h d s)) = true
          /\ snd (WorkerConnector._Handle_message h d s) = s).
Proof.
  intros h d Hp Hc. split; [|split].
  - intro s. unfold WorkerServer._Handle_message, bind, parse.
    rewrite Hc, Hp. split; reflexivity.
  - intro s. unfold WorkerServerOld._Handle_message, bind, parse.
    rewrite Hc, Hp. split; reflexivity.
  - intros Ho s. unfold WorkerConnector._Handle_message, bind, parse.
    rewrite Ho, Hc, Hp. split; reflexivity.
Qed.

Lemma malformed_frame_changes_nothing_witness :
  is_throw (fst (WorkerServer._Handle_message node_host (Text "{uid")
                   worker_server_open)) = true
  /\ snd (WorkerServer._Handle_message node_host (Text "{uid")
            worker_server_open) = worker_server_open.
Proof.
  exact (proj1 (malformed_frame_changes_nothing node_host (Text "{uid")
                  eq_refl eq_refl) worker_server_open).
Defined.

Lemma binary_frame_falls_through_witness :
  let a := WebServer.WebAcceptor_create 3 4 (Some (JNum 7)) in
  WebServer.done
    (snd (WebServer.socket_message node_host (Binary envelope7)
            (WebServer.handle_upgrade example_handler 3 4)))
  = [WebServer.SocketClose; WebServer.Create a; WebServer.Handle a].
Proof.
  exact (binary_frame_falls_through node_host example_handler 3 4 envelope7
           (JObj [("header", JNum 7)]) (Some (JNum 7)) eq_refl eq_refl).
Defined.

Lemma lacks_header_undefined (w : Json) :
  lacks_header w = true -> get_property w "header" = Some None.
Proof.
  destruct w as [| | | | |f]; cbn; intro H; try reflexivity;
    try discriminate H.
  destruct (assoc "header" f); [discriminate H | reflexivity].
Qed.

(** X16.  A first text frame that decodes to [null] closes the socket: no
    acceptor is made although the frame is valid JSON.  One that decodes to
    anything else without a [header] field (a number, a string, an array,
    an object that lacks it) is accepted like an envelope: the acceptor is
    made with an undefined header and the handler is called with it. *)
Theorem first_frame_without_header :
  forall (h : Host) (handler : WebServer.UserHandler) (request id : nat)
         (t : string) (w : Json),
    JSON_parse h (Text t) = Some w ->
    let r := WebServer.socket_message h (Text t)
               (WebServer.handle_upgrade handler request id) in
    let a := WebServer.WebAcceptor_create request id None in
    (w = JNull -> WebServer.done (snd r) = [WebServer.SocketClose])
    /\ (lacks_header w = true ->
        WebServer.done (snd r)
        = ([WebServer.Create a; WebServer.Handle a]
             ++ (if is_throw (handler a) then [WebServer.SocketClose]
                 else []))%list).
Proof.
  intros h handler request id t w Hp. cbv zeta.
  unfold WebServer.socket_message, WebServer.handle_upgrade, bind, get, modify.
  cbn [WebServer.wid WebServer.req WebServer.done WebServer.once_message
       WebServer.run_once].
  unfold bind, try_catch, WebServer.on_first_message, bind, try_catch, parse,
    get, ret.
  rewrite Hp. split.
  - intros ->. reflexivity.
  - intro Hl. cbn. rewrite (lacks_header_undefined w Hl). cbn.
    destruct (handler _) as [[]|e]; reflexivity.
Qed.

Lemma first_frame_without_header_witness :
  let a := WebServer.WebAcceptor_create 3 4 None in
  WebServer.done
    (snd (WebServer.socket_message node_host (Text "null")
            (WebServer.handle_upgrade example_handler 3 4)))
  = [WebServer.SocketClose]
  /\ WebServer.done
       (snd (WebServer.socket_message node_host (Text "1")
               (WebServer.handle_upgrade example_handler 3 4)))
     = [WebServer.Create a; WebServer.Handle a].
Proof.
  cbv zeta. split.
  - exact (proj1 (first_frame_without_header node_host example_handler 3 4
                    "null" JNull eq_refl) eq_refl).
  - exact (proj2 (first_frame_without_header node_host example_handler 3 4
                    "1" (JNum 1) eq_refl) eq_refl).
Defined.

(** ** What is never done *)

Lemma replyData_benign (j : Json) (c : Communicator.t) :
  forallb connector_action (fst (Communicator.replyData j c)) = true.
Proof.
  unfold Communicator.replyData, Communicator.complete.
  destruct (Communicator.decode j) as [[u l|u b v]|]; cbn; try reflexivity.
  destruct (existsb _ _); cbn; [destruct b|]; reflexivity.
Qed.

Lemma conn_step_actions (h : Host) (s : WorkerConnector.t)
      (op : WorkerConnector.Op) :
  forallb connector_action (WorkerConnector.log s) = true ->
  forallb connector_action (WorkerConnector.log (WorkerConnector.step h s op))
  = true.
Proof.
  unfold WorkerConnector.step.
  destruct s as [st w c cm j hc cg np lg]; cbn [WorkerConnector.log].
  intro H.
  destruct op as [ex| |cp ex| |d| |l]; cbn [WorkerConnector.exec].
  - destruct w, st, ex; cbn; rewrite ?forallb_app, ?H; reflexivity.
  - destruct w, st; cbn; exact H.
  - destruct w, cg, cp, ex; cbn; rewrite ?forallb_app, ?H; reflexivity.
  - destruct w, st; cbn; rewrite ?forallb_app, ?H; reflexivity.
  - destruct w; [|exact H].
    destruct d as [x| | |]; [destruct x| | |]; destruct c; cbn;
      unfold bind, parse, WorkerConnector.communicator, modify; cbn;
      rewrite ?forallb_app, ?H; try reflexivity;
      (destruct (JSON_parse h _) as [js|]; cbn; [|exact H]);
      pose proof (replyData_benign js cm) as Hb;
      destruct (Communicator.replyData js cm) as [acts c']; cbn in *;
      rewrite forallb_app, H, Hb; reflexivity.
  - destruct hc; cbn; exact H.
  - destruct w, st; cbn; try exact H;
      unfold bind, modify; cbn; rewrite ?forallb_app, ?H; reflexivity.
Qed.

(** X17.  Whatever is done with a worker connector, it never closes or
    terminates the channel to its worker, and the only sentinel it ever
    posts is CLOSING: the teardown is left to the worker. *)
Theorem connector_never_tears_down :
  forall (h : Host) (ops : list WorkerConnector.Op),
    let s := connector_run h ops WorkerConnector.init in
    count is_teardown (WorkerConnector.log s) = 0
    /\ (forall d, In (PostMessage d) (WorkerConnector.log s) ->
                  d = Sentinel CLOSING).
Proof.
  intros h ops. cbv zeta.
  assert (H : forall s,
             forallb connector_action (WorkerConnector.log s) = true ->
             forallb connector_action
               (WorkerConnector.log (connector_run h ops s)) = true).
  { induction ops as [|op ops IH]; intros s Hs; [exact Hs|].
    apply IH, conn_step_actions, Hs. }
  specialize (H WorkerConnector.init eq_refl).
  generalize dependent (WorkerConnector.log
                          (connector_run h ops WorkerConnector.init)).
  intros l Hl. split.
  - unfold count. induction l as [|a l IH]; [reflexivity|].
    cbn in Hl. apply Bool.andb_true_iff in Hl. destruct Hl as [Ha Hl].
    cbn. destruct a; cbn in *; try discriminate Ha; apply IH; exact Hl.
  - intros d Hd. rewrite forallb_forall in Hl. specialize (Hl _ Hd).
    cbn in Hl. destruct d as [x| | |]; try discriminate Hl.
    apply State_eqb_eq in Hl. rewrite Hl. reflexivity.
Qed.

Lemma connector_never_tears_down_witness :
  let s := connector_run node_host (sessions example_text 0 2 1)
                         WorkerConnector.init in
  In (PostMessage (Sentinel CLOSING)) (WorkerConnector.log s)
  /\ Sentinel CLOSING = Sentinel CLOSING.
Proof.
  cbv zeta.
  assert (H : In (PostMessage (Sentinel CLOSING))
                 (WorkerConnector.log
                    (connector_run node_host (sessions example_text 0 2 1)
                                   WorkerConnector.init))).
  { vm_compute. right. right. right. right. left. reflexivity. }
  split; [exact H|].
  exact (proj2 (connector_never_tears_down node_host
                  (sessions example_text 0 2 1)) _ H).
Defined.

Lemma web_listening_log (p : Action -> bool) (l : list nat) (s : WebServer.t) :
  (forall x, p (PromiseResolved x) = false) ->
  length (filter p (WebServer.log
                      (snd (WebServer.for_each WebServer.listening_listener l s))))
  = length (filter p (WebServer.log s)).
Proof.
  intro Hp. revert s. induction l as [|x l IH]; intro s; [reflexivity|].
  cbn [WebServer.for_each]. unfold bind at 1.
  destruct (WebServer.listening_listener x s) as [r s1] eqn:E.
  unfold WebServer.listening_listener, WebServer.set_state,
    WebServer.server_on_error, WebServer.set_server, WebServer.emit,
    bind, modify, get in E.
  inversion E; subst; clear E.
  rewrite IH. cbn. rewrite filter_app, length_app. cbn. rewrite Hp. cbn. lia.
Qed.

Lemma web_error_log (p : Action -> bool) (e : Error)
      (l : list WebServer.ErrorListener) (s : WebServer.t) :
  (forall x, p (PromiseRejected x e) = false) ->
  length (filter p (WebServer.log
                      (snd (WebServer.for_each (WebServer.error_listener e) l s))))
  = length (filter p (WebServer.log s)).
Proof.
  intro Hp. revert s. induction l as [|x l IH]; intro s; [reflexivity|].
  cbn [WebServer.for_each]. unfold bind at 1.
  destruct x as [q|];
    unfold WebServer.error_listener, WebServer.set_state, WebServer.emit,
      bind, modify, ret; rewrite IH; cbn; [|reflexivity].
  rewrite filter_app, length_app. cbn. rewrite Hp. cbn. lia.
Qed.

Lemma web_step_closes (s : WebServer.t) (op : WebServer.Op) :
  count is_protocol_close (WebServer.log s)
  = WebServer.closing_protocol s + count is_server_close (WebServer.log s) ->
  count is_protocol_close (WebServer.log (WebServer.step s op))
  = WebServer.closing_protocol (WebServer.step s op)
    + count is_server_close (WebServer.log (WebServer.step s op)).
Proof.
  unfold WebServer.step, count. intro H.
  destruct op as [port handler| | |e| |]; cbn [WebServer.exec].
  - destruct s as [st o [i sec li ou ol oe] run ns np cp cs lg].
    destruct st, li; web_open_cases; cbn in *;
      rewrite ?filter_app, ?length_app; cbn; lia.
  - destruct s as [st o sv run ns np cp cs lg].
    destruct st; cbn in *; rewrite ?filter_app, ?length_app; cbn; lia.
  - rewrite web_emit_listening.
    rewrite !web_listening_log by reflexivity.
    destruct (web_listening_frame
                (WebServer.on_listening (WebServer.server_ s))
                (snd (WebServer.set_listening true s)))
      as [_ [_ [_ [_ [_ [_ [H7 _]]]]]]].
    cbv zeta in H7. rewrite H7. exact H.
  - unfold WebServer.emit_error, bind, get.
    rewrite !web_error_log by reflexivity.
    destruct (web_error_frame e (WebServer.on_error (WebServer.server_ s)) s)
      as [_ [_ [H3 _]]].
    cbv zeta in H3. rewrite H3. exact H.
  - destruct s as [st o sv run ns np [|cp] cs lg]; cbn in *;
      rewrite ?filter_app, ?length_app; cbn; lia.
  - destruct s as [st o sv run ns np cp [|cs] lg]; cbn in *; lia.
Qed.

(** X18.  Whatever is done with a web server, [server_.close] is called
    only from the callback of a [protocol_.close]: the calls of
    [protocol_.close] are those of [server_.close] plus the [close()]
    calls still waiting for that callback, so the server object is never
    closed more often than, or before, the protocol. *)
Theorem web_close_order :
  forall (key cert : option string) (ops : list WebServer.Op),
    let s := web_run ops (WebServer.init key cert) in
    count is_protocol_close (WebServer.log s)
    = WebServer.closing_protocol s + count is_server_close (WebServer.log s).
Proof.
  intros key cert ops. cbv zeta.
  assert (H : forall s,
             count is_protocol_close (WebServer.log s)
             = WebServer.closing_protocol s
               + count is_server_close (WebServer.log s) ->
             count is_protocol_close (WebServer.log (web_run ops s))
             = WebServer.closing_protocol (web_run ops s)
               + count is_server_close (WebServer.log (web_run ops s))).
  { induction ops as [|op ops IH]; intros s Hs; [exact Hs|].
    apply IH, web_step_closes, Hs. }
  apply H. unfold WebServer.init.
  destruct key as [k|]; [destruct (WebServer.truthy _)|]; reflexivity.
Qed.

Lemma server_step_announced (h : Host) (s : WorkerServer.t)
      (op : WorkerServer.Op) :
  server_announced s -> server_announced (WorkerServer.step h s op).
Proof.
  unfold server_announced, WorkerServer.step.
  destruct s as [st p hd om cm o cl tm lg].
  cbn [WorkerServer.onmessage WorkerServer.log].
  intros [H1 H2].
  destruct op as [pr| | | | | |d]; cbn [WorkerServer.exec].
  - unfold WorkerServer.open, bind, get.
    destruct (is_node h), (document_defined h), (is_worker_server h), st, hd,
      om as [|[|]|]; count_arith.
  - destruct o as [|o]; [cbn; split; assumption|].
    destruct hd as [[| |]|], om as [|[|]|]; count_arith.
  - destruct hd, om as [|[|]|]; count_arith.
  - destruct st, om as [|[|]|]; count_arith.
  - destruct cl as [|cl], om as [|[|]|]; count_arith.
  - destruct tm as [|tm], om as [|[|]|]; count_arith.
  - destruct om as [|[|]|]; cbn; try (split; assumption).
    destruct d as [x| | |]; [destruct x| | |]; cbn; tidy_cases;
      try (split; assumption); destruct st; count_arith.
Qed.

Lemma old_server_step_announced (h : Host) (s : WorkerServerOld.t)
      (op : WorkerServerOld.Op) :
  old_server_announced s -> old_server_announced (WorkerServerOld.step h s op).
Proof.
  unfold old_server_announced, WorkerServerOld.step.
  destruct s as [st p hd om cm cl tm lg].
  cbn [WorkerServerOld.onmessage WorkerServerOld.log].
  intros [H1 H2].
  destruct op as [pr| | | | |d]; cbn [WorkerServerOld.exec].
  - unfold WorkerServerOld.open, bind, get.
    destruct (is_node h), (document_defined h), (process_send_defined h), st,
      om; count_arith.
  - destruct st, om; count_arith.
  - destruct cl as [|cl], om; count_arith.
  - destruct tm as [|tm], om; count_arith.
  - unfold WorkerServerOld.headers. destruct hd; cbn; [split; assumption|].
    tidy_cases; split; assumption.
  - destruct om; cbn; [|split; assumption].
    destruct d as [x| | |]; [destruct x| | |]; cbn; tidy_cases;
      try (split; assumption); destruct st; count_arith.
Qed.

(** X19.  On any host and in any run of either worker server, a frame is
    handed to [replyData] only after the server has posted OPEN: what
    arrives earlier is dropped or, in WorkerServer.ts, taken for the
    handshake. *)
Theorem worker_server_replies_after_open :
  forall (h : Host),
    (forall ops : list WorkerServer.Op,
        let s := server_run h ops WorkerServer.init in
        1 <= count is_reply (WorkerServer.log s) ->
        1 <= count (is_post OPEN) (WorkerServer.log s))
    /\ (forall ops : list WorkerServerOld.Op,
           let s := old_server_run h ops WorkerServerOld.init in
           1 <= count is_reply (WorkerServerOld.log s) ->
           1 <= count (is_post OPEN) (WorkerServerOld.log s)).
Proof.
  intro h. split.
  - intros ops. cbv zeta.
    assert (H : forall s, server_announced s ->
                          server_announced (server_run h ops s)).
    { induction ops as [|op ops IH]; intros s Hs; [exact Hs|].
      apply IH, server_step_announced, Hs. }
    destruct (H WorkerServer.init) as [_ H2]; [split; cbn; lia|].
    exact H2.
  - intros ops. cbv zeta.
    assert (H : forall s, old_server_announced s ->
                          old_server_announced (old_server_run h ops s)).
    { induction ops as [|op ops IH]; intros s Hs; [exact Hs|].
      apply IH, old_server_step_announced, Hs. }
    destruct (H WorkerServerOld.init) as [_ H2]; [split; cbn; lia|].
    exact H2.
Qed.

Lemma worker_server_replies_after_open_witness :
  let s := server_run node_host
             [WorkerServer.Open (Some 1); WorkerServer.Frame (Text envelope7);
              WorkerServer.OpenResume; WorkerServer.Frame (Text return0)]
             WorkerServer.init in
  1 <= count (is_post OPEN) (WorkerServer.log s).
Proof.
  apply (proj1 (worker_server_replies_after_open node_host)
           [WorkerServer.Open (Some 1); WorkerServer.Frame (Text envelope7);
            WorkerServer.OpenResume; WorkerServer.Frame (Text return0)]).
  vm_compute. apply le_n.
Defined.

(** X20.  [open()] with a port outside 0..65535, on a web server that is
    CLOSED, or NONE with a server object that is not listening: [listen]
    throws inside [_Open], so the promise is rejected with that RangeError
    and [open()] with it.  By then the state is OPENING and the listeners
    are on the server object, and nothing on this path sets the state
    back: [listen] was not started, and the server is left where
    [open()] and [close()] both throw. *)
Theorem web_open_bad_port_rejects :
  forall (s : WebServer.t) (port : nat) (handler : WebServer.UserHandler),
    WebServer.valid_port port = false ->
    WebServer.state_ s = CLOSED
    \/ (WebServer.state_ s = NONE
        /\ WebServer.listening (WebServer.server_ s) = false) ->
    let r := WebServer.open port handler s in
    let p := WebServer.next_promise s in
    fst r = Throw WebServer.ERR_SOCKET_BAD_PORT
    /\ name WebServer.ERR_SOCKET_BAD_PORT = RangeError
    /\ WebServer.state_ (snd r) = OPENING
    /\ WebServer.log (snd r)
       = (WebServer.log s
            ++ [PromiseRejected p WebServer.ERR_SOCKET_BAD_PORT])%list
    /\ (forall (port' : nat) (handler' : WebServer.UserHandler),
           WebServer.open port' handler' (snd r)
           = (Throw (mkError DomainError
                       "Error on WebServer.open(): it's on opening, wait for a second."),
              snd r))
    /\ WebServer.close (snd r)
       = (Throw (mkError DomainError
                   "Error on WebServer.close(): server is not opened."),
          snd r).
Proof.
  intros [st o [i sec li ou ol oe] run ns np cp cs lg] port handler Hv H.
  cbv zeta.
  unfold WebServer.open, WebServer._Open, WebServer.server_listen, try_catch,
    bind, get.
  destruct H as [H | [H Hl]]; cbn in H; subst st;
    [|cbn in Hl; subst li]; cbn; rewrite Hv; cbn; repeat split.
Qed.

Lemma web_open_bad_port_rejects_witness :
  let r := WebServer.open (256 * 256) example_handler
             (WebServer.init None None) in
  fst r = Throw WebServer.ERR_SOCKET_BAD_PORT
  /\ WebServer.state_ (snd r) = OPENING
  /\ WebServer.log (snd r) = [PromiseRejected 0 WebServer.ERR_SOCKET_BAD_PORT]
  /\ WebServer.close (snd r)
     = (Throw (mkError DomainError
                 "Error on WebServer.close(): server is not opened."),
        snd r).
Proof.
  destruct (web_open_bad_port_rejects (WebServer.init None None) (256 * 256)
              example_handler eq_refl (or_intror (conj eq_refl eq_refl)))
    as [H1 [_ [H3 [H4 [_ H6]]]]].
  repeat split; assumption.
Defined.

Lemma web_step_stopped (s : WebServer.t) (op : WebServer.Op) :
  WebServer.protocol_running s = false ->
  WebServer.protocol_running (WebServer.step s op) = false.
Proof.
  unfold WebServer.step. intro H.
  destruct op as [port handler| | |e| |]; cbn [WebServer.exec].
  - destruct s as [st o [i sec li ou ol oe] run ns np cp cs lg].
    destruct st, li; web_open_cases; exact H.
  - destruct s as [st o sv run ns np cp cs lg]. destruct st; cbn; trivial.
  - rewrite web_emit_listening, web_listening_running. exact H.
  - unfold WebServer.emit_error, bind, get. rewrite web_error_running.
    exact H.
  - destruct s as [st o sv run ns np [|cp] cs lg]; exact H.
  - destruct s as [st o sv run ns np cp [|cs] lg]; exact H.
Qed.

Lemma web_run_stopped (ops : list WebServer.Op) (s : WebServer.t) :
  WebServer.protocol_running s = false ->
  WebServer.protocol_running (web_run ops s) = false.
Proof.
  revert s. induction ops as [|op ops IH]; intros s H; [exact H|].
  apply IH, web_step_stopped, H.
Qed.

(** X21.  [protocol_] is made in the constructor only and [close()] closes
    it: whatever is done with a web server after a [close()] that was
    accepted, [open()] again and "listening" included, an upgrade gives
    no web socket any more. *)
Theorem web_closed_protocol_refuses :
  forall (s : WebServer.t) (ops : list WebServer.Op) (request id : nat),
    WebServer.state_ s = OPEN ->
    WebServer.emit_upgrade (web_run (WebServer.Close :: ops) s) request id
    = [].
Proof.
  intros s ops request id Hs.
  unfold WebServer.emit_upgrade.
  change (web_run (WebServer.Close :: ops) s)
    with (web_run ops (WebServer.step s WebServer.Close)).
  rewrite (web_run_stopped ops); [reflexivity|].
  destruct s as [st o sv run ns np cp cs lg]. cbn in Hs. subst st.
  reflexivity.
Qed.

Lemma web_closed_protocol_refuses_witness :
  let s := web_run [WebServer.Open 80 example_handler; WebServer.Listening]
                   (WebServer.init None None) in
  let s' := web_run [WebServer.Close; WebServer.ProtocolClosed;
                     WebServer.ServerClosed;
                     WebServer.Open 80 example_handler; WebServer.Listening]
                    s in
  WebServer.emit_upgrade s 5 6 = [WebServer.handle_upgrade example_handler 5 6]
  /\ WebServer.state_ s' = OPEN
  /\ WebServer.emit_upgrade s' 5 6 = [].
Proof.
  split; [reflexivity|]. split; [reflexivity|].
  exact (web_closed_protocol_refuses
           (web_run [WebServer.Open 80 example_handler; WebServer.Listening]
                    (WebServer.init None None))
           [WebServer.ProtocolClosed; WebServer.ServerClosed;
            WebServer.Open 80 example_handler; WebServer.Listening]
           5 6 eq_refl).
Defined.
